(** * Hello Fairy BLE: the protocol engine of [api.py], embedded and verified

    The development follows [custom_components/hello_fairy_ble/api.py]:
    the command encoder with its checksum, the acknowledgement wait of
    [_send_command], the notification handler and the optimistic state
    updates of [set_power], [set_color_hsv], [set_color_rgb],
    [set_brightness] and [set_preset].

    Python integers are [Z]; Python floats are IEEE 754 binary64, which is
    what the kernel's primitive [float] computes, so [colorsys] and the
    [elapsed += 0.1] loop are modelled bit for bit.  Exceptions are values
    of [exn] threaded through a state-and-error monad. *)

From Stdlib Require Import String.
From Stdlib Require Import ZArith List Bool Lia.
From Stdlib Require Import Floats.PrimFloat Floats.FloatOps Floats.SpecFloat.
From Stdlib Require Import Uint63.
Import ListNotations.
Open Scope Z_scope.

Set Warnings "-inexact-float".

(** ** const.py *)

Module Const.

Definition CMD_PREFIX : Z := 0xAA.
Definition CMD_POWER : Z := 0x02.
Definition CMD_COLOR_PRESET : Z := 0x03.
Definition MODE_COLOR : Z := 0x01.
Definition MODE_PRESET : Z := 0x02.

Definition ACK2 : list Z := [0xAA; 0x02; 0x00; 0xAC].
Definition ACK3 : list Z := [0xAA; 0x03; 0x00; 0xAD].

Definition EFFECT_PRESETS : list (string * Z) :=
  [ ("Blue White Dissolve"%string, 41);
    ("Blue Sparkle"%string, 56);
    ("White Sparkle"%string, 57);
    ("Blue with Pink Sparkle"%string, 8);
    ("Fireworks"%string, 17);
    ("Xmas"%string, 18);
    ("Candy Cane"%string, 50);
    ("Halloween"%string, 20);
    ("Red Gold"%string, 40);
    ("July 4th"%string, 39);
    ("Valentine"%string, 46);
    ("St. Patrick"%string, 47);
    ("May Day"%string, 48);
    ("Snow Day"%string, 54) ].

End Const.

(** ** Python numbers *)

Module Py.

(** [float(z)] for an integer of magnitude below 2^53 (exact there).
    Python converts a larger integer by rounding, or raises OverflowError;
    the conversion here goes through 63-bit integers and is used on colour
    channels, percents and small counts only. *)
Definition float_of_Z (z : Z) : float :=
  if z <? 0 then PrimFloat.opp (PrimFloat.of_uint63 (Uint63.of_Z (- z)))
  else PrimFloat.of_uint63 (Uint63.of_Z z).

(** [int(x)]: truncation toward zero of a finite float.  Python raises
    ValueError on NaN and OverflowError on infinities; they map to 0 here,
    so what is stated through [int] holds where the float is finite, as it
    is for colour channels within 0..255. *)
Definition int_of_float (x : float) : Z :=
  match Prim2SF x with
  | S754_finite sg m e =>
      let a := if 0 <=? e then Z.shiftl (Z.pos m) e
               else Z.shiftr (Z.pos m) (- e) in
      if sg then - a else a
  | _ => 0
  end.

(** [a / b] on two integers: true division. *)
Definition truediv (a b : Z) : float :=
  PrimFloat.div (float_of_Z a) (float_of_Z b).

(** [x % 1.0]: C's [fmod(x, 1.0)], moved into [0, 1) when negative. *)
Definition mod1 (x : float) : float :=
  let m := PrimFloat.sub x (float_of_Z (int_of_float x)) in
  if PrimFloat.ltb m 0 then PrimFloat.add m 1
  else if PrimFloat.eqb m 0 then 0%float else m.

(** [max(a, b, c)] and [min(a, b, c)] as the builtins scan their arguments. *)
Definition max3 (a b c : float) : float :=
  let m := if PrimFloat.ltb a b then b else a in
  if PrimFloat.ltb m c then c else m.

Definition min3 (a b c : float) : float :=
  let m := if PrimFloat.ltb b a then b else a in
  if PrimFloat.ltb c m then c else m.

(** [sum(data)] *)
Definition sum (data : list Z) : Z := fold_left Z.add data 0.

(** An item [bytes(...)] accepts: [0 <= b < 256]. *)
Definition is_byte (b : Z) : bool := (0 <=? b) && (b <? 256).

(** Truthiness of an optional integer: [None] and [0] are false. *)
Definition or_default (x : option Z) (d : Z) : Z :=
  match x with
  | Some 0 => d
  | Some n => n
  | None => d
  end.

End Py.

(** ** colorsys (CPython's Lib/colorsys.py) *)

Module colorsys.

Import Py.
Local Open Scope float_scope.

(** [rangec / maxc] is the IEEE division here.  CPython raises
    ZeroDivisionError when [maxc] is 0.0 and [minc] is not, which needs a
    negative channel; with channels within 0..255 [maxc] is positive
    whenever [minc] differs from it. *)
Definition rgb_to_hsv (r g b : float) : float * float * float :=
  let maxc := max3 r g b in
  let minc := min3 r g b in
  let rangec := maxc - minc in
  let v := maxc in
  if minc =? maxc then (0, 0, v)
  else
    let s := rangec / maxc in
    let rc := (maxc - r) / rangec in
    let gc := (maxc - g) / rangec in
    let bc := (maxc - b) / rangec in
    let h := if r =? maxc then bc - gc
             else if g =? maxc then 2 + rc - bc
             else 4 + gc - rc in
    let h := mod1 (h / 6) in
    (h, s, v).

Definition hsv_to_rgb (h s v : float) : float * float * float :=
  if s =? 0 then (v, v, v)
  else
    let i := int_of_float (h * 6) in
    let f := h * 6 - float_of_Z i in
    let p := v * (1 - s) in
    let q := v * (1 - s * f) in
    let t := v * (1 - s * (1 - f)) in
    let i := (i mod 6)%Z in
    if (i =? 0)%Z then (v, t, p)
    else if (i =? 1)%Z then (q, v, p)
    else if (i =? 2)%Z then (p, v, t)
    else if (i =? 3)%Z then (p, q, v)
    else if (i =? 4)%Z then (t, p, v)
    else (v, p, q).

End colorsys.

(** ** The object and its collaborators

    The six attributes of the device state and [_ack_received] are the
    fields of [HelloFairyAPI.__init__].  The BLE client, the transport and
    the coordinator's callback are the remaining fields:
    - [client_connected]: [self._client] is set and [is_connected];
    - [link_ok]: whether [establish_connection] succeeds when called;
    - [written]: the frames given to [write_gatt_char], oldest first;
    - [inbox]: the notifications the transport delivers, grouped by the
      [asyncio.sleep(0.1)] during which each group arrives;
    - [updates]: how many times [_update_callback] has been called. *)

Record HelloFairyAPI : Type := mkAPI {
  client_connected : bool;
  link_ok : bool;
  written : list (list Z);
  inbox : list (list (list Z));
  updates : nat;
  _ack_received : bool;
  state : option bool;
  brightness : option Z;
  color : option (Z * Z * Z);
  hsv : option (Z * Z * Z);
  current_preset : option Z;
  mode : option Z
}.

Definition with_client_connected (x : bool) (s : HelloFairyAPI) :=
  mkAPI x (link_ok s) (written s) (inbox s) (updates s) (_ack_received s)
        (state s) (brightness s) (color s) (hsv s) (current_preset s) (mode s).

Definition with_written (x : list (list Z)) (s : HelloFairyAPI) :=
  mkAPI (client_connected s) (link_ok s) x (inbox s) (updates s)
        (_ack_received s) (state s) (brightness s) (color s) (hsv s)
        (current_preset s) (mode s).

Definition with_inbox (x : list (list (list Z))) (s : HelloFairyAPI) :=
  mkAPI (client_connected s) (link_ok s) (written s) x (updates s)
        (_ack_received s) (state s) (brightness s) (color s) (hsv s)
        (current_preset s) (mode s).

Definition with_updates (x : nat) (s : HelloFairyAPI) :=
  mkAPI (client_connected s) (link_ok s) (written s) (inbox s) x
        (_ack_received s) (state s) (brightness s) (color s) (hsv s)
        (current_preset s) (mode s).

Definition with_ack_received (x : bool) (s : HelloFairyAPI) :=
  mkAPI (client_connected s) (link_ok s) (written s) (inbox s) (updates s) x
        (state s) (brightness s) (color s) (hsv s) (current_preset s) (mode s).

Definition with_state (x : option bool) (s : HelloFairyAPI) :=
  mkAPI (client_connected s) (link_ok s) (written s) (inbox s) (updates s)
        (_ack_received s) x (brightness s) (color s) (hsv s)
        (current_preset s) (mode s).

Definition with_brightness (x : option Z) (s : HelloFairyAPI) :=
  mkAPI (client_connected s) (link_ok s) (written s) (inbox s) (updates s)
        (_ack_received s) (state s) x (color s) (hsv s) (current_preset s)
        (mode s).

Definition with_color (x : option (Z * Z * Z)) (s : HelloFairyAPI) :=
  mkAPI (client_connected s) (link_ok s) (written s) (inbox s) (updates s)
        (_ack_received s) (state s) (brightness s) x (hsv s)
        (current_preset s) (mode s).

Definition with_hsv (x : option (Z * Z * Z)) (s : HelloFairyAPI) :=
  mkAPI (client_connected s) (link_ok s) (written s) (inbox s) (updates s)
        (_ack_received s) (state s) (brightness s) (color s) x
        (current_preset s) (mode s).

Definition with_current_preset (x : option Z) (s : HelloFairyAPI) :=
  mkAPI (client_connected s) (link_ok s) (written s) (inbox s) (updates s)
        (_ack_received s) (state s) (brightness s) (color s) (hsv s) x
        (mode s).

Definition with_mode (x : option Z) (s : HelloFairyAPI) :=
  mkAPI (client_connected s) (link_ok s) (written s) (inbox s) (updates s)
        (_ack_received s) (state s) (brightness s) (color s) (hsv s)
        (current_preset s) x.

(** ** Exceptions and the monad of the methods *)

Inductive exn : Type :=
| TimeoutError
| ConnectionError
| IndexError
| ValueError
| OutOfFuel.   (* the model's loop bound was reached; shown never to happen *)

Inductive result (A : Type) : Type :=
| Ok (a : A)
| Raise (e : exn).

Arguments Ok {A} a.
Arguments Raise {A} e.

Definition M (A : Type) : Type := HelloFairyAPI -> HelloFairyAPI * result A.

Definition ret {A} (a : A) : M A := fun s => (s, Ok a).

Definition bind {A B} (m : M A) (f : A -> M B) : M B :=
  fun s =>
    match m s with
    | (s1, Ok a) => f a s1
    | (s1, Raise e) => (s1, Raise e)
    end.

Definition raise {A} (e : exn) : M A := fun s => (s, Raise e).
Definition get : M HelloFairyAPI := fun s => (s, Ok s).
Definition modify (f : HelloFairyAPI -> HelloFairyAPI) : M unit :=
  fun s => (f s, Ok tt).

Notation "x <- c1 ;; c2" := (bind c1 (fun x => c2))
  (at level 61, c1 at next level, right associativity).
Notation "c1 ;; c2" := (bind c1 (fun _ => c2))
  (at level 61, right associativity).

(** [data[i]] *)
Definition item (data : list Z) (i : nat) : M Z :=
  match nth_error data i with
  | Some b => ret b
  | None => raise IndexError
  end.

(** [self._update_callback()] *)
Definition _update_callback : M unit :=
  modify (fun s => with_updates (S (updates s)) s).

(** [(hi << 8) | lo] *)
Definition be16 (hi lo : Z) : Z := Z.lor (Z.shiftl hi 8) lo.

(** [colorsys.hsv_to_rgb(h / 360, s / 100, v / 100)] followed by
    [(int(r * 255), int(g * 255), int(b * 255))]. *)
Definition rgb_of_hsv (h s v : Z) : Z * Z * Z :=
  let '(r, g, b) :=
    colorsys.hsv_to_rgb (Py.truediv h 360) (Py.truediv s 100) (Py.truediv v 100) in
  (Py.int_of_float (PrimFloat.mul r 255),
   Py.int_of_float (PrimFloat.mul g 255),
   Py.int_of_float (PrimFloat.mul b 255)).

(** ** _handle_notification *)

Definition _handle_notification (data : list Z) : M unit :=
  if Z.of_nat (length data) =? 4 then
    modify (with_ack_received true) ;;
    _update_callback
  else if Z.of_nat (length data) <? 12 then
    ret tt
  else
    b6 <- item data 6 ;;
    let power_state := b6 =? 1 in
    modify (with_state (Some power_state)) ;;
    if negb power_state then
      _update_callback
    else
      m <- item data 7 ;;
      modify (with_mode (Some m)) ;;
      (if m =? 1 then
         d8 <- item data 8 ;;
         d9 <- item data 9 ;;
         let h := be16 d8 d9 in
         d10 <- item data 10 ;;
         d11 <- item data 11 ;;
         let s := be16 d10 d11 / 10 in
         d12 <- item data 12 ;;
         d13 <- item data 13 ;;
         let v := be16 d12 d13 / 10 in
         modify (with_hsv (Some (h, s, v))) ;;
         modify (with_brightness (Some v)) ;;
         modify (with_color (Some (rgb_of_hsv h s v)))
       else if m =? 2 then
         preset <- item data 8 ;;
         d9 <- item data 9 ;;
         d10 <- item data 10 ;;
         let bright := be16 d9 d10 / 10 in
         modify (with_current_preset (Some preset)) ;;
         modify (with_brightness (Some bright))
       else ret tt) ;;
      _update_callback.

(** ** The transport seen from the methods *)

(** [_ensure_connected] with [_connect]: a client that is not connected is
    re-established, and a failure there is a [ConnectionError]. *)
Definition _ensure_connected : M unit :=
  s <- get ;;
  if client_connected s then ret tt
  else if link_ok s then modify (with_client_connected true)
  else raise ConnectionError.

(** [write_gatt_char(COMMAND_CHARACTERISTIC_UUID, bytes(command), False)]:
    [bytes] refuses an item outside [range(256)] before anything is sent.
    The write itself is taken to reach the device: an error raised by the
    transport while writing (bleak's BleakError, which [_send_command]
    lets through) has no counterpart here: what is proved of a command is
    proved of one whose write went through, and no theorem takes the
    outcomes of this definition for all a command can end in. *)
Definition write_gatt_char (command : list Z) : M unit :=
  if forallb Py.is_byte command then
    modify (fun s => with_written (written s ++ [command]) s)
  else raise ValueError.

(** The notifications of one group reach the handler one after the other;
    an exception inside the callback stays in the callback's task. *)
Definition deliver (frames : list (list Z)) (s : HelloFairyAPI) : HelloFairyAPI :=
  fold_left (fun acc data => fst (_handle_notification data acc)) frames s.

(** [await asyncio.sleep(0.1)]: the event loop runs the handler on what
    arrived meanwhile. *)
Definition sleep : M unit :=
  fun s =>
    match inbox s with
    | [] => (s, Ok tt)
    | frames :: rest => (deliver frames (with_inbox rest s), Ok tt)
    end.

(** ** _calculate_checksum and _send_command *)

Definition _calculate_checksum (data : list Z) : Z := Py.sum data mod 256.

(** [while not self._ack_received and elapsed < timeout: sleep; elapsed += 0.1] *)
Fixpoint wait_for_ack (fuel : nat) (timeout elapsed : float) : M unit :=
  fun s =>
    if negb (_ack_received s) && PrimFloat.ltb elapsed timeout then
      match fuel with
      | O => (s, Raise OutOfFuel)
      | S fuel' =>
          (sleep ;; wait_for_ack fuel' timeout (PrimFloat.add elapsed 0.1)) s
      end
    else (s, Ok tt).

(** More turns than the loop can take: [elapsed] passes 5.0 after 51. *)
Definition wait_fuel : nat := 64.

Definition _send_command (command : list Z) : M unit :=
  _ensure_connected ;;
  let checksum := _calculate_checksum command in
  let command := command ++ [checksum] in
  write_gatt_char command ;;
  modify (with_ack_received false) ;;
  let timeout := 5.0%float in
  let elapsed := 0.0%float in
  wait_for_ack wait_fuel timeout elapsed ;;
  s <- get ;;
  if negb (_ack_received s) then raise TimeoutError else ret tt.

(** ** The control surface *)

(** [not self.state] *)
Definition is_off (s : HelloFairyAPI) : bool :=
  match state s with
  | Some true => false
  | _ => true
  end.

(** [self.state == state] *)
Definition state_is (st : bool) (s : HelloFairyAPI) : bool :=
  match state s with
  | Some b => Bool.eqb b st
  | None => false
  end.

Definition clamp (lo hi x : Z) : Z := Z.max lo (Z.min hi x).

Definition set_power (st : bool) : M unit :=
  s <- get ;;
  if state_is st s then ret tt
  else
    let command := [Const.CMD_PREFIX; Const.CMD_POWER; 0x01;
                    if st then 0x01 else 0x00] in
    _send_command command ;;
    modify (with_state (Some st)) ;;
    if negb st then
      modify (with_brightness None) ;;
      modify (with_color None) ;;
      modify (with_hsv None) ;;
      modify (with_current_preset None) ;;
      modify (with_mode None)
    else ret tt.

(** The command list built by [set_color_hsv] from the clamped values. *)
Definition color_command (h s v : Z) : list Z :=
  [Const.CMD_PREFIX; Const.CMD_COLOR_PRESET; 0x07; Const.MODE_COLOR;
   Z.shiftr h 8; Z.land h 0xFF;
   Z.shiftr (s * 10) 8; Z.land (s * 10) 0xFF;
   Z.shiftr (v * 10) 8; Z.land (v * 10) 0xFF].

Definition set_color_hsv (h s v : Z) : M unit :=
  st <- get ;;
  (if is_off st then set_power true ;; sleep else ret tt) ;;
  let h := clamp 0 359 h in
  let s := clamp 0 100 s in
  let v := clamp 0 100 v in
  let command := color_command h s v in
  _send_command command ;;
  modify (with_hsv (Some (h, s, v))) ;;
  modify (with_brightness (Some v)) ;;
  modify (with_mode (Some Const.MODE_COLOR)) ;;
  modify (with_current_preset None) ;;
  modify (with_color (Some (rgb_of_hsv h s v))).

(** The three integers [set_color_rgb] hands to [set_color_hsv]. *)
Definition hsv_of_rgb (prior : option Z) (r g b : Z) : Z * Z * Z :=
  let '(h, s, v) :=
    colorsys.rgb_to_hsv (Py.truediv r 255) (Py.truediv g 255) (Py.truediv b 255) in
  let h_deg := Py.int_of_float (PrimFloat.mul h 360) in
  let s_pct := Py.int_of_float (PrimFloat.mul s 100) in
  let v_pct := if PrimFloat.ltb 0 v then Py.int_of_float (PrimFloat.mul v 100)
               else Py.or_default prior 50 in
  (h_deg, s_pct, v_pct).

(** What [set_color_hsv] keeps of them: the clamped triple it stores. *)
Definition stored_hsv (prior : option Z) (r g b : Z) : Z * Z * Z :=
  let '(h_deg, s_pct, v_pct) := hsv_of_rgb prior r g b in
  (clamp 0 359 h_deg, clamp 0 100 s_pct, clamp 0 100 v_pct).

(** The colour it stores beside it: the stored triple converted back. *)
Definition read_back (prior : option Z) (r g b : Z) : Z * Z * Z :=
  let '(h, s, v) := stored_hsv prior r g b in rgb_of_hsv h s v.

(** [set_color_rgb], for channels within 0..255, the range of a colour.
    Outside it [r / 255.0] and [colorsys.rgb_to_hsv] can raise before
    anything is sent (ZeroDivisionError for a largest channel of 0 beside a
    negative one), which this definition does not follow: the theorems on
    its outcome are stated for channels within the range. *)
Definition set_color_rgb (r g b : Z) : M unit :=
  st <- get ;;
  let '(h_deg, s_pct, v_pct) := hsv_of_rgb (brightness st) r g b in
  set_color_hsv h_deg s_pct v_pct.

Definition set_brightness (level : Z) : M unit :=
  st <- get ;;
  if is_off st then ret tt
  else
    let level := clamp 0 100 level in
    match hsv st with
    | Some (h, s, _) => set_color_hsv h s level
    | None => set_color_hsv 0 0 level
    end.

Definition set_preset (preset : Z) : M unit :=
  st <- get ;;
  (if is_off st then set_power true ;; sleep else ret tt) ;;
  let preset := clamp 1 58 preset in
  st <- get ;;
  let bright := Py.or_default (brightness st) 50 in
  let command :=
    [Const.CMD_PREFIX; Const.CMD_COLOR_PRESET; 0x04; Const.MODE_PRESET;
     preset; Z.shiftr (bright * 10) 8; Z.land (bright * 10) 0xFF] in
  _send_command command ;;
  modify (with_current_preset (Some preset)) ;;
  modify (with_brightness (Some bright)) ;;
  modify (with_mode (Some Const.MODE_PRESET)) ;;
  modify (with_color None) ;;
  modify (with_hsv None).

(** [EFFECT_PRESETS[effect_name]], when the name is a key. *)
Fixpoint lookup_effect (name : string) (table : list (string * Z)) : option Z :=
  match table with
  | [] => None
  | (k, v) :: rest => if String.eqb k name then Some v else lookup_effect name rest
  end.

Definition set_effect (effect_name : string) : M unit :=
  match lookup_effect effect_name Const.EFFECT_PRESETS with
  | Some preset_num => set_preset preset_num
  | None => ret tt
  end.

(** ** The object after [__init__] and some reachable states *)

(** [HelloFairyAPI(ble_device, update_callback)]: no client yet, nothing
    pending, every device attribute [None].  [link] and [events] are the
    transport's behaviour. *)
Definition init (link : bool) (events : list (list (list Z))) : HelloFairyAPI :=
  mkAPI false link [] events 0 true None None None None None None.

(** A lamp showing a colour: [set_color_hsv(45, 25, 50)] on a fresh object,
    both commands acknowledged. *)
Definition lit_color : HelloFairyAPI :=
  fst (set_color_hsv 45 25 50 (init true [[Const.ACK2]; []; [Const.ACK3]])).

(** A lamp running a preset: [set_preset(17)] on a fresh object. *)
Definition lit_preset : HelloFairyAPI :=
  fst (set_preset 17 (init true [[Const.ACK2]; []; [Const.ACK3]])).

(** A lamp dimmed to nothing: [set_brightness(0)] after the colour. *)
Definition lit_dark : HelloFairyAPI :=
  fst (set_brightness 0 (with_inbox [[Const.ACK3]] lit_color)).

(** Status frames: power off; colour mode cut at 12 bytes; colour mode in
    full; preset mode cut at 11 bytes; preset mode in full. *)
Definition frame_off : list Z := [0; 0; 0; 0; 0; 0; 0; 0; 0; 0; 0; 0].
Definition frame_color_short : list Z := [0; 0; 0; 0; 0; 0; 1; 1; 0; 45; 0; 250].
Definition frame_color : list Z := [0; 0; 0; 0; 0; 0; 1; 1; 0; 45; 0; 250; 1; 244].
Definition frame_preset_short : list Z := [0; 0; 0; 0; 0; 0; 1; 2; 17; 1; 244].
Definition frame_preset : list Z := [0; 0; 0; 0; 0; 0; 1; 2; 17; 1; 244; 0].

(** ** The state invariant of the data model *)

Definition is_some {A} (x : option A) : bool :=
  match x with Some _ => true | None => false end.

(** Exactly one of {[hsv] with [color], [current_preset]} is populated when
    [mode] is set, and all three are [None] unless the power is on. *)
Definition invariant (s : HelloFairyAPI) : bool :=
  (if is_some (mode s) then
     (is_some (hsv s) && is_some (color s) && negb (is_some (current_preset s)))
     || (negb (is_some (hsv s)) && negb (is_some (color s))
         && is_some (current_preset s))
   else true)
  && (if is_off s then
        negb (is_some (hsv s)) && negb (is_some (color s))
        && negb (is_some (current_preset s))
      else true).

(** ** The frame layout in the specification's words *)

Module Spec.

(** [encode_command(kind, payload)]: prefix, kind, the payload's length,
    the payload, and the sum of all of these modulo 256. *)
Definition encode_command (kind : Z) (payload : list Z) : list Z :=
  let body := [0xAA; kind; Z.of_nat (length payload)] ++ payload in
  body ++ [Py.sum body mod 256].

(** The power payload as the specification lays it out: two bytes. *)
Definition power_payload (on : bool) : list Z :=
  [0x01; if on then 0x01 else 0x00].

End Spec.

(** ** The wait loop without the device *)

(** How many sleeps the loop takes when no acknowledgement comes, or
    [None] if [fuel] turns would not be enough. *)
Fixpoint polls (fuel : nat) (timeout elapsed : float) : option nat :=
  if PrimFloat.ltb elapsed timeout then
    match fuel with
    | O => None
    | S fuel' =>
        match polls fuel' timeout (PrimFloat.add elapsed 0.1) with
        | Some n => Some (S n)
        | None => None
        end
    end
  else Some O.

(** No frame of the first [n] groups has the acknowledgement's length. *)
Definition silent (n : nat) (events : list (list (list Z))) : bool :=
  forallb (forallb (fun data => negb (Z.of_nat (length data) =? 4)))
          (firstn n events).

(** The link can carry a command: connected, or connectable. *)
Definition reachable (s : HelloFairyAPI) : bool :=
  client_connected s || link_ok s.

(** The transport-side fields, which the handler never touches. *)
Definition same_link (s s' : HelloFairyAPI) : Prop :=
  client_connected s' = client_connected s
  /\ link_ok s' = link_ok s
  /\ written s' = written s.

(** The link fields together with the acknowledgement flag and the events
    still to come. *)
Definition quiet (s s' : HelloFairyAPI) : Prop :=
  same_link s s' /\ _ack_received s' = _ack_received s /\ inbox s' = inbox s.

(** [keeps R m]: whatever [m] returns or raises, the state it ends in is
    related by [R] to the one it started from. *)
Definition keeps (R : HelloFairyAPI -> HelloFairyAPI -> Prop) {A} (m : M A) : Prop :=
  forall s, R s (fst (m s)).

(** The object right after the write of [_send_command]: connected, the
    frame out, the flag down. *)
Definition armed (command : list Z) (s : HelloFairyAPI) : HelloFairyAPI :=
  with_ack_received false
    (with_written (written s ++ [command ++ [_calculate_checksum command]])
       (with_client_connected true s)).

(** Where the wait started by [_send_command] ends. *)
Definition waited (command : list Z) (s : HelloFairyAPI) : HelloFairyAPI :=
  fst (wait_for_ack wait_fuel 5 0 (armed command s)).

(** The saturated colours: every channel 0 or 255, not all 0. *)
Definition saturated (r g b : Z) : bool :=
  ((r =? 0) || (r =? 255)) && ((g =? 0) || (g =? 255))
  && ((b =? 0) || (b =? 255)) && negb ((r =? 0) && (g =? 0) && (b =? 0)).

(** [v > 0] in [set_color_rgb]: the input is not black. *)
Definition has_value (r g b : Z) : bool :=
  let '(_, _, v) :=
    colorsys.rgb_to_hsv (Py.truediv r 255) (Py.truediv g 255) (Py.truediv b 255) in
  PrimFloat.ltb 0 v.

(** A grey that is not black and whose read-back is the same grey lowered
    by at most 3. *)
Definition grey_within_3 (x : Z) : bool :=
  let '(r, g, b) := read_back None x x x in
  has_value x x x && (r =? g) && (g =? b) && (x - 3 <=? r) && (r <=? x).

Definition greys : list Z := map Z.of_nat (seq 1 255).

(** Every notification still to come is an acknowledgement. *)
Definition acks_only (events : list (list (list Z))) : bool :=
  forallb (forallb (fun data => Z.of_nat (length data) =? 4)) events.

(** The six device attributes agree. *)
Definition same_device (s s' : HelloFairyAPI) : Prop :=
  state s' = state s
  /\ brightness s' = brightness s
  /\ color s' = color s
  /\ hsv s' = hsv s
  /\ current_preset s' = current_preset s
  /\ mode s' = mode s.

(** While only acknowledgements are to come, the device attributes stay
    and only acknowledgements remain to come. *)
Definition calm (s s' : HelloFairyAPI) : Prop :=
  acks_only (inbox s) = true ->
  same_device s s' /\ acks_only (inbox s') = true.

(** The handler leaves the events to come alone and never lowers the
    acknowledgement flag. *)
Definition heard (s s' : HelloFairyAPI) : Prop :=
  inbox s' = inbox s
  /\ (_ack_received s = true -> _ack_received s' = true).

(** ** api.py: the remaining methods *)

(** [disconnect]: a connected client is stopped and dropped, whatever
    [stop_notify] and [disconnect] raise; the device attributes stay. *)
Definition disconnect : M unit :=
  s <- get ;;
  if client_connected s then modify (with_client_connected false) else ret tt.

(** [get_available_effects], also [self.available_effects]. *)
Definition get_available_effects : list string := map fst Const.EFFECT_PRESETS.

(** [request_status]: the protocol has no status request. *)
Definition request_status : M unit := ret tt.

(** ** coordinator.py *)

Module Coordinator.

Record HelloFairyApiData : Type := mkData {
  state : option bool;
  brightness : option Z;
  color : option (Z * Z * Z);
  hsv : option (Z * Z * Z);
  current_preset : option Z;
  mode : option Z;
  available_effects : option (list string)
}.

End Coordinator.

(** [_async_update_data], and the value [_async_push_data] hands on: the
    attributes of the API object as they are at the call. *)
Definition _async_update_data (s : HelloFairyAPI) : Coordinator.HelloFairyApiData :=
  Coordinator.mkData (state s) (brightness s) (color s) (hsv s)
    (current_preset s) (mode s) (Some get_available_effects).

(** ** light.py

    The coordinator's [set_power], [set_brightness], [set_color_rgb],
    [set_color_hsv], [set_preset] and [set_effect] hand over to the API
    methods of the same names, which stand for them here. *)

Module Light.

(** [brightness_scale]: integer product, true division, float sum, [int].
    [None] is the ZeroDivisionError of an empty source range. *)
Definition brightness_scale
    (brightness_pct from_min from_max to_min to_max : Z) : option Z :=
  if from_max - from_min =? 0 then None
  else
    Some (Py.int_of_float
            (PrimFloat.add (Py.float_of_Z to_min)
               (Py.truediv ((brightness_pct - from_min) * (to_max - to_min))
                           (from_max - from_min)))).

(** The [brightness] property. *)
Definition brightness (data : Coordinator.HelloFairyApiData) : option Z :=
  match Coordinator.brightness data with
  | Some b => brightness_scale b 0 100 0 255
  | None => None
  end.

(** The [is_on] and [rgb_color] properties. *)
Definition is_on (data : Coordinator.HelloFairyApiData) : option bool :=
  Coordinator.state data.

Definition rgb_color (data : Coordinator.HelloFairyApiData) : option (Z * Z * Z) :=
  Coordinator.color data.

(** The [effect_list] property. *)
Definition effect_list (data : Coordinator.HelloFairyApiData) : option (list string) :=
  Coordinator.available_effects data.

(** [for effect_name, preset_value in EFFECT_PRESETS.items()]: the first
    name whose value is the preset. *)
Fixpoint effect_of_preset (preset_num : Z) (items : list (string * Z))
  : option string :=
  match items with
  | [] => None
  | (effect_name, preset_value) :: rest =>
      if preset_value =? preset_num then Some effect_name
      else effect_of_preset preset_num rest
  end.

(** The [effect] property: [mode == 2 and current_preset], then the
    search. *)
Definition effect (data : Coordinator.HelloFairyApiData) : option string :=
  match Coordinator.mode data, Coordinator.current_preset data with
  | Some m, Some preset_num =>
      if (m =? 2) && negb (preset_num =? 0)
      then effect_of_preset preset_num Const.EFFECT_PRESETS
      else None
  | _, _ => None
  end.

(** The keyword arguments [async_turn_on] looks at. *)
Record kwargs : Type := mkKwargs {
  ATTR_BRIGHTNESS : option Z;
  ATTR_RGB_COLOR : option (Z * Z * Z);
  ATTR_EFFECT : option string
}.

(** [async_turn_on], up to the closing refresh request (the framework's,
    which reads [_async_update_data]). *)
Definition async_turn_on (kw : kwargs) : M unit :=
  set_power true ;;
  (match ATTR_BRIGHTNESS kw with
   | Some brightness_255 =>
       match brightness_scale brightness_255 0 255 0 100 with
       | Some brightness_100 => set_brightness brightness_100
       | None => ret tt   (* not reached: the range 0..255 is not empty *)
       end
   | None => ret tt
   end) ;;
  (match ATTR_RGB_COLOR kw with
   | Some (red, green, blue) => set_color_rgb red green blue
   | None => ret tt
   end) ;;
  (match ATTR_EFFECT kw with
   | Some effect_name => set_effect effect_name
   | None => ret tt
   end).

(** [async_turn_off], up to the refresh request. *)
Definition async_turn_off : M unit := set_power false.

End Light.

(** ** number.py *)

Module Number.

(** [int(value)] on a float: the truncation, or the exception Python
    raises on a NaN (ValueError) or an infinity (OverflowError). *)
Inductive int_result : Type :=
| IntOk (n : Z)
| IntValueError
| IntOverflowError.

Definition int (value : float) : int_result :=
  match Prim2SF value with
  | S754_nan => IntValueError
  | S754_infinity _ => IntOverflowError
  | _ => IntOk (Py.int_of_float value)
  end.

(** How [async_set_native_value] ends: it returns, or re-raises what
    [set_preset] raised, or fails in [int(value)]. *)
Inductive outcome : Type :=
| Returned
| Raised (e : exn)
| RaisedOverflowError.

(** The [native_value] property; [data] is [None] before the first
    refresh. *)
Definition native_value (data : option Coordinator.HelloFairyApiData)
  : option float :=
  match data with
  | Some d =>
      match Coordinator.current_preset d with
      | Some p => if p =? 0 then None else Some (Py.float_of_Z p)
      | None => None
      end
  | None => None
  end.

(** [async_set_native_value]: the range test of its own, then
    [set_preset]; an exception is logged and raised again. *)
Definition async_set_native_value (value : float) (s : HelloFairyAPI)
  : HelloFairyAPI * outcome :=
  match int value with
  | IntValueError => (s, Raised ValueError)
  | IntOverflowError => (s, RaisedOverflowError)
  | IntOk preset_num =>
      if (preset_num <? 1) || (58 <? preset_num) then (s, Returned)
      else
        match set_preset preset_num s with
        | (s', Ok _) => (s', Returned)
        | (s', Raise e) => (s', Raised e)
        end
  end.

End Number.

(** ** Catalogue and bounds used in the statements *)

(** The value [set_preset] sends as brightness fits its two bytes. *)
Definition brightness_fits (s : HelloFairyAPI) : bool :=
  match brightness s with
  | Some b => (0 <=? b) && (b <=? 6553)
  | None => true
  end.

(** Device brightness values and framework brightness values. *)
Definition percents : list Z := map Z.of_nat (seq 0 101).
Definition levels : list Z := map Z.of_nat (seq 0 256).

(** What the two scalings of light.py are checked against. *)
Definition scale_up_ok (p : Z) : bool :=
  match Light.brightness_scale p 0 100 0 255 with
  | Some b => b =? p * 255 / 100
  | None => false
  end.

Definition scale_down_ok (b : Z) : bool :=
  match Light.brightness_scale b 0 255 0 100 with
  | Some p => p =? b * 100 / 255
  | None => false
  end.

(** A device brightness shown by the entity and set again as shown. *)
Definition shown_and_set_again (p : Z) : option Z :=
  match Light.brightness_scale p 0 100 0 255 with
  | Some b => Light.brightness_scale b 0 255 0 100
  | None => None
  end.

Definition set_again_ok (p : Z) : bool :=
  match shown_and_set_again p with
  | Some q => q =? (if p mod 20 =? 0 then p else p - 1)
  | None => false
  end.

(** A framework brightness sent to the device and shown again. *)
Definition sent_and_shown (b : Z) : option Z :=
  match Light.brightness_scale b 0 255 0 100 with
  | Some p => Light.brightness_scale p 0 100 0 255
  | None => None
  end.

Definition shown_ok (b : Z) : bool :=
  match sent_and_shown b with
  | Some b' => (b - 3 <=? b') && (b' <=? b)
  | None => false
  end.

(** The outcome of an operation is not an error of its arguments: neither
    the ValueError of [bytes(command)] nor an IndexError. *)
Definition no_argument_error (r : result unit) : Prop :=
  r <> Raise ValueError /\ r <> Raise IndexError.

(** ** The conversion of [set_color_rgb] on channels within 0..255 *)

(** A colour channel as [set_color_rgb] scales it: [x / 255.0]. *)
Definition scaled (x : Z) : float := Py.truediv x 255.

(** On two channels the comparisons of the scaled floats are those of the
    integers. *)
Definition scaled_order_ok (x y : Z) : bool :=
  Bool.eqb (PrimFloat.ltb (scaled x) (scaled y)) (x <? y)
  && Bool.eqb (PrimFloat.eqb (scaled x) (scaled y)) (x =? y).

Definition scaled_orders_ok (x : Z) : bool :=
  forallb (scaled_order_ok x) levels.

(** [int(v * 100)] of a scaled channel is [100 * x // 255], and a channel
    that is not 0 scales to a float above 0. *)
Definition value_ok (x : Z) : bool :=
  (Py.int_of_float (PrimFloat.mul (scaled x) 100) =? 100 * x / 255)
  && Bool.eqb (PrimFloat.ltb 0 (scaled x)) (0 <? x).

(** [int(s * 100)] for a largest channel [hi] and a smallest [lo]. *)
Definition saturation_of (hi lo : Z) : Z :=
  Py.int_of_float
    (PrimFloat.mul
       (PrimFloat.div (PrimFloat.sub (scaled hi) (scaled lo)) (scaled hi)) 100).

(** It is the exact percentage [100 * (hi - lo) // hi] or one below. *)
Definition saturation_ok (hi lo : Z) : bool :=
  let exact := 100 * (hi - lo) / hi in
  (exact - 1 <=? saturation_of hi lo) && (saturation_of hi lo <=? exact)
  && (0 <=? saturation_of hi lo).

Definition saturations_ok (hi : Z) : bool :=
  forallb (fun lo => (hi <=? lo) || saturation_ok hi lo) levels.

(** The channels of the three-digit hexadecimal colours: 0x00, 0x11, ...,
    0xFF. *)
Definition hex_levels : list Z := map (fun n => 17 * Z.of_nat n) (seq 0 16).

Definition near (k x y : Z) : bool := (x - k <=? y) && (y <=? x + k).

(** The colour is not black and is read back within [k] per channel. *)
Definition round_trip_within (k r g b : Z) : bool :=
  let '(r', g', b') := read_back None r g b in
  has_value r g b && near k r r' && near k g g' && near k b b'.

Definition hex_round_trip_ok (r : Z) : bool :=
  forallb
    (fun g =>
       forallb
         (fun b => ((r =? 0) && (g =? 0) && (b =? 0))
                   || round_trip_within 5 r g b)
         hex_levels)
    hex_levels.


(** * Proofs *)

(** ** Stepping through the monad *)

Lemma bind_ok {A B} (m : M A) (f : A -> M B) s s1 a :
  m s = (s1, Ok a) -> (x <- m ;; f x) s = f a s1.
Proof. intros H. unfold bind. now rewrite H. Qed.

Lemma bind_raise {A B} (m : M A) (f : A -> M B) s s1 e :
  m s = (s1, Raise e) -> (x <- m ;; f x) s = (s1, Raise e).
Proof. intros H. unfold bind. now rewrite H. Qed.

Lemma bind_ok_inv {A B} (m : M A) (f : A -> M B) s s' b :
  (x <- m ;; f x) s = (s', Ok b) ->
  exists s1 a, m s = (s1, Ok a) /\ f a s1 = (s', Ok b).
Proof.
  unfold bind. destruct (m s) as [s1 [a | e]]; intros H.
  - now exists s1, a.
  - discriminate.
Qed.

Lemma item_in (data : list Z) (i : nat) s :
  (i < length data)%nat -> item data i s = (s, Ok (nth i data 0)).
Proof.
  intros H. unfold item.
  destruct (nth_error data i) as [b |] eqn:E.
  - now rewrite (nth_error_nth data i 0 E).
  - apply nth_error_None in E. lia.
Qed.

Lemma item_out (data : list Z) (i : nat) s :
  (length data <= i)%nat -> item data i s = (s, Raise IndexError).
Proof.
  intros H. unfold item.
  now rewrite (proj2 (nth_error_None data i) H).
Qed.

(** ** The handler, case by case *)

Ltac past_length_tests :=
  unfold _handle_notification;
  match goal with
  | |- context [Z.of_nat ?n =? 4] =>
      destruct (Z.eqb_spec (Z.of_nat n) 4); [lia |];
      destruct (Z.ltb_spec (Z.of_nat n) 12); [lia |]
  end.

Lemma handle_ack (data : list Z) (s : HelloFairyAPI) :
  length data = 4%nat ->
  _handle_notification data s
  = (with_updates (S (updates s)) (with_ack_received true s), Ok tt).
Proof.
  intros H. unfold _handle_notification. rewrite H. reflexivity.
Qed.

Lemma handle_off (data : list Z) (s : HelloFairyAPI) :
  (12 <= length data)%nat -> nth 6 data 0 <> 1 ->
  _handle_notification data s
  = (with_updates (S (updates s)) (with_state (Some false) s), Ok tt).
Proof.
  intros Hlen Hb. past_length_tests.
  rewrite (bind_ok _ _ s s (nth 6 data 0)) by (apply item_in; lia).
  destruct (Z.eqb_spec (nth 6 data 0) 1); [contradiction |].
  reflexivity.
Qed.

Lemma handle_preset (data : list Z) (s : HelloFairyAPI) :
  (12 <= length data)%nat -> nth 6 data 0 = 1 -> nth 7 data 0 = 2 ->
  _handle_notification data s
  = (with_updates (S (updates s))
       (with_brightness (Some (be16 (nth 9 data 0) (nth 10 data 0) / 10))
          (with_current_preset (Some (nth 8 data 0))
             (with_mode (Some 2) (with_state (Some true) s)))),
     Ok tt).
Proof.
  intros Hlen H6 H7. past_length_tests.
  rewrite (bind_ok _ _ s s (nth 6 data 0)) by (apply item_in; lia).
  rewrite H6. cbn [Z.eqb Pos.eqb negb].
  unfold bind at 1. cbn [modify].
  rewrite (bind_ok _ _ _ _ (nth 7 data 0)) by (apply item_in; lia).
  rewrite H7. cbn [Z.eqb Pos.eqb].
  unfold bind at 1. cbn [modify].
  unfold bind at 1.
  rewrite (bind_ok _ _ _ _ (nth 8 data 0)) by (apply item_in; lia).
  rewrite (bind_ok _ _ _ _ (nth 9 data 0)) by (apply item_in; lia).
  rewrite (bind_ok _ _ _ _ (nth 10 data 0)) by (apply item_in; lia).
  reflexivity.
Qed.

Lemma handle_color_short (data : list Z) (s : HelloFairyAPI) :
  (12 <= length data < 14)%nat -> nth 6 data 0 = 1 -> nth 7 data 0 = 1 ->
  _handle_notification data s
  = (with_mode (Some 1) (with_state (Some true) s), Raise IndexError).
Proof.
  intros Hlen H6 H7. past_length_tests.
  rewrite (bind_ok _ _ s s (nth 6 data 0)) by (apply item_in; lia).
  rewrite H6. cbn [Z.eqb Pos.eqb negb].
  unfold bind at 1. cbn [modify].
  rewrite (bind_ok _ _ _ _ (nth 7 data 0)) by (apply item_in; lia).
  rewrite H7. cbn [Z.eqb Pos.eqb].
  unfold bind at 1. cbn [modify].
  unfold bind at 1.
  rewrite (bind_ok _ _ _ _ (nth 8 data 0)) by (apply item_in; lia).
  rewrite (bind_ok _ _ _ _ (nth 9 data 0)) by (apply item_in; lia).
  rewrite (bind_ok _ _ _ _ (nth 10 data 0)) by (apply item_in; lia).
  rewrite (bind_ok _ _ _ _ (nth 11 data 0)) by (apply item_in; lia).
  destruct (Nat.eq_dec (length data) 12) as [E | E].
  - rewrite (bind_raise _ _ _ _ IndexError) by (apply item_out; lia).
    reflexivity.
  - rewrite (bind_ok _ _ _ _ (nth 12 data 0)) by (apply item_in; lia).
    rewrite (bind_raise _ _ _ _ IndexError) by (apply item_out; lia).
    reflexivity.
Qed.

(** ** What a computation leaves alone *)

Section Keeps.

Variable R : HelloFairyAPI -> HelloFairyAPI -> Prop.
Hypothesis R_refl : forall s, R s s.
Hypothesis R_trans : forall s1 s2 s3, R s1 s2 -> R s2 s3 -> R s1 s3.

Lemma keeps_ret {A} (a : A) : keeps R (ret a).
Proof. intros s. apply R_refl. Qed.

Lemma keeps_raise {A} (e : exn) : keeps R (@raise A e).
Proof. intros s. apply R_refl. Qed.

Lemma keeps_get : keeps R get.
Proof. intros s. apply R_refl. Qed.

Lemma keeps_item (data : list Z) (i : nat) : keeps R (item data i).
Proof.
  intros s. unfold item. destruct (nth_error data i); apply R_refl.
Qed.

Lemma keeps_modify (f : HelloFairyAPI -> HelloFairyAPI) :
  (forall s, R s (f s)) -> keeps R (modify f).
Proof. intros H s. apply H. Qed.

Lemma keeps_bind {A B} (m : M A) (f : A -> M B) :
  keeps R m -> (forall a, keeps R (f a)) -> keeps R (x <- m ;; f x).
Proof.
  intros Hm Hf s. unfold bind.
  specialize (Hm s). destruct (m s) as [s1 [a | e]]; cbn [fst] in *.
  - eapply R_trans; [exact Hm | apply Hf].
  - exact Hm.
Qed.

Lemma keeps_deliver (frames : list (list Z)) :
  (forall data, In data frames -> keeps R (_handle_notification data)) ->
  forall s, R s (deliver frames s).
Proof.
  unfold deliver. induction frames as [| data frames IH]; intros H s.
  - apply R_refl.
  - cbn [fold_left]. eapply R_trans.
    + apply (H data). now left.
    + apply IH. intros d Hd. apply H. now right.
Qed.

End Keeps.

Ltac keeps_steps :=
  repeat first
    [ apply keeps_bind; [assumption | | intro]
    | apply keeps_ret; assumption
    | apply keeps_raise; assumption
    | apply keeps_get; assumption
    | apply keeps_item; assumption
    | apply keeps_modify; intro ].

Lemma same_link_refl s : same_link s s.
Proof. now repeat split. Qed.

Lemma same_link_trans s1 s2 s3 :
  same_link s1 s2 -> same_link s2 s3 -> same_link s1 s3.
Proof.
  intros (A1 & B1 & C1) (A2 & B2 & C2).
  repeat split; congruence.
Qed.

(** The handler never touches the client, the link or what was written. *)
Lemma handler_keeps_link (data : list Z) :
  keeps same_link (_handle_notification data).
Proof.
  pose proof same_link_refl as Hr. pose proof same_link_trans as Ht.
  unfold _handle_notification, _update_callback.
  destruct (Z.of_nat (length data) =? 4).
  { keeps_steps; now repeat split. }
  destruct (Z.of_nat (length data) <? 12).
  { keeps_steps. }
  apply keeps_bind; [assumption | keeps_steps | intro b6].
  apply keeps_bind; [assumption | | intros _].
  { keeps_steps. now repeat split. }
  destruct (negb (b6 =? 1)).
  { keeps_steps. now repeat split. }
  apply keeps_bind; [assumption | keeps_steps | intro m].
  apply keeps_bind; [assumption | | intros _].
  { keeps_steps. now repeat split. }
  apply keeps_bind; [assumption | | intros _].
  - destruct (m =? 1); [| destruct (m =? 2)];
      keeps_steps; now repeat split.
  - keeps_steps. now repeat split.
Qed.

Lemma quiet_refl s : quiet s s.
Proof. split; [apply same_link_refl | now split]. Qed.

Lemma quiet_trans s1 s2 s3 : quiet s1 s2 -> quiet s2 s3 -> quiet s1 s3.
Proof.
  intros (L1 & A1 & I1) (L2 & A2 & I2). split; [| split].
  - eapply same_link_trans; eassumption.
  - congruence.
  - congruence.
Qed.

(** A frame that is not four bytes long leaves the flag as it was. *)
Lemma handler_quiet (data : list Z) :
  (Z.of_nat (length data) =? 4) = false ->
  keeps quiet (_handle_notification data).
Proof.
  intros H4.
  pose proof quiet_refl as Hr. pose proof quiet_trans as Ht.
  unfold _handle_notification, _update_callback. rewrite H4.
  destruct (Z.of_nat (length data) <? 12).
  { keeps_steps. }
  apply keeps_bind; [assumption | keeps_steps | intro b6].
  apply keeps_bind; [assumption | | intros _].
  { keeps_steps. now repeat split. }
  destruct (negb (b6 =? 1)).
  { keeps_steps. now repeat split. }
  apply keeps_bind; [assumption | keeps_steps | intro m].
  apply keeps_bind; [assumption | | intros _].
  { keeps_steps. now repeat split. }
  apply keeps_bind; [assumption | | intros _].
  - destruct (m =? 1); [| destruct (m =? 2)];
      keeps_steps; now repeat split.
  - keeps_steps. now repeat split.
Qed.

(** ** Sleeping and waiting *)

Lemma sleep_ok s : snd (sleep s) = Ok tt.
Proof. unfold sleep. now destruct (inbox s). Qed.

Lemma sleep_keeps_link : keeps same_link sleep.
Proof.
  intros s. unfold sleep. destruct (inbox s) as [| frames rest]; cbn [fst].
  - apply same_link_refl.
  - apply same_link_trans with (with_inbox rest s); [now repeat split |].
    apply keeps_deliver.
    + apply same_link_refl.
    + apply same_link_trans.
    + intros data _. apply handler_keeps_link.
Qed.

(** The loop itself writes nothing and leaves the connection as it is. *)
Lemma wait_keeps_link (fuel : nat) (timeout : float) :
  forall elapsed, keeps same_link (wait_for_ack fuel timeout elapsed).
Proof.
  induction fuel as [| fuel IH]; intros elapsed s; cbn [wait_for_ack];
    destruct (negb (_ack_received s) && PrimFloat.ltb elapsed timeout);
    cbn [fst]; try apply same_link_refl.
  apply (keeps_bind same_link same_link_trans).
  - apply sleep_keeps_link.
  - intros _. apply IH.
Qed.

(** With enough fuel for the silent case the loop ends by its own test. *)
Lemma wait_total (fuel : nat) (timeout : float) :
  forall elapsed n s,
    polls fuel timeout elapsed = Some n ->
    snd (wait_for_ack fuel timeout elapsed s) = Ok tt.
Proof.
  induction fuel as [| fuel IH]; intros elapsed n s Hp;
    cbn [wait_for_ack polls] in *;
    destruct (PrimFloat.ltb elapsed timeout); try discriminate;
    rewrite ?andb_false_r; try reflexivity.
  rewrite andb_true_r. destruct (negb (_ack_received s)); [| reflexivity].
  destruct (polls fuel timeout (PrimFloat.add elapsed 0.1)) as [n' |] eqn:E;
    [| discriminate].
  unfold bind. pose proof (sleep_ok s) as Hs.
  destruct (sleep s) as [s1 r]. cbn [snd] in Hs. subst r.
  now apply IH with n'.
Qed.

Lemma silent_cons (n : nat) frames rest :
  silent (S n) (frames :: rest) = true ->
  forallb (fun data => negb (Z.of_nat (length data) =? 4)) frames = true
  /\ silent n rest = true.
Proof. unfold silent. cbn [firstn forallb]. apply andb_prop. Qed.

(** One sleep over a group without acknowledgement. *)
Lemma sleep_silent (n : nat) s :
  silent (S n) (inbox s) = true ->
  same_link s (fst (sleep s))
  /\ _ack_received (fst (sleep s)) = _ack_received s
  /\ silent n (inbox (fst (sleep s))) = true.
Proof.
  intros H. unfold sleep. destruct (inbox s) as [| frames rest] eqn:E; cbn [fst].
  - split; [apply same_link_refl | split; [reflexivity |]].
    rewrite E. unfold silent. now rewrite firstn_nil.
  - apply silent_cons in H. destruct H as [Hf Hr].
    assert (Q : quiet (with_inbox rest s) (deliver frames (with_inbox rest s))).
    { apply keeps_deliver.
      - apply quiet_refl.
      - apply quiet_trans.
      - intros data Hin. apply handler_quiet.
        rewrite forallb_forall in Hf. specialize (Hf data Hin).
        now apply negb_true_iff in Hf. }
    destruct Q as (L & A & I). split; [| split].
    + apply same_link_trans with (with_inbox rest s); [now repeat split | exact L].
    + exact A.
    + now rewrite I.
Qed.

(** While nothing of length four arrives the loop runs to its deadline
    and the flag is still down. *)
Lemma wait_silent (fuel : nat) (timeout : float) :
  forall elapsed n s,
    polls fuel timeout elapsed = Some n ->
    _ack_received s = false ->
    silent n (inbox s) = true ->
    _ack_received (fst (wait_for_ack fuel timeout elapsed s)) = false.
Proof.
  induction fuel as [| fuel IH]; intros elapsed n s Hp Ha Hs;
    cbn [wait_for_ack polls] in *;
    destruct (PrimFloat.ltb elapsed timeout); try discriminate;
    rewrite ?andb_false_r; cbn [fst]; try assumption.
  rewrite Ha. cbn [negb andb].
  destruct (polls fuel timeout (PrimFloat.add elapsed 0.1)) as [n' |] eqn:E;
    [| discriminate].
  injection Hp as <-.
  destruct (sleep_silent n' s Hs) as (_ & A & S').
  unfold bind. pose proof (sleep_ok s) as Hok.
  destruct (sleep s) as [s1 r]. cbn [fst snd] in *. subst r.
  apply IH with n'; try assumption. congruence.
Qed.

Lemma polls_5s : polls wait_fuel 5 0 = Some 51%nat.
Proof. vm_compute. reflexivity. Qed.

(** ** _send_command *)

Lemma checksum_is_byte (data : list Z) :
  Py.is_byte (_calculate_checksum data) = true.
Proof.
  unfold Py.is_byte, _calculate_checksum.
  pose proof (Z.mod_pos_bound (Py.sum data) 256 ltac:(lia)).
  apply andb_true_intro. split; [apply Z.leb_le | apply Z.ltb_lt]; lia.
Qed.

Lemma frame_is_bytes (command : list Z) :
  forallb Py.is_byte command = true ->
  forallb Py.is_byte (command ++ [_calculate_checksum command]) = true.
Proof.
  intros H. rewrite forallb_app, H. cbn [forallb andb].
  now rewrite checksum_is_byte.
Qed.

Lemma ensure_connected_ok s :
  reachable s = true ->
  _ensure_connected s = (with_client_connected true s, Ok tt).
Proof.
  unfold reachable, _ensure_connected, bind, get. intros H.
  destruct s as [c l w i u a st br co hs pr mo]. cbn in *.
  destruct c; [reflexivity |]. cbn in H. subst l. reflexivity.
Qed.

(** The whole of [_send_command] once the link carries the frame: wait,
    then raise or return by the flag. *)
Lemma send_command_eq (command : list Z) s :
  reachable s = true ->
  forallb Py.is_byte command = true ->
  _send_command command s
  = (waited command s,
     if _ack_received (waited command s) then Ok tt else Raise TimeoutError).
Proof.
  intros Hr Hb. unfold _send_command.
  rewrite (bind_ok _ _ _ _ _ (ensure_connected_ok s Hr)).
  unfold write_gatt_char. rewrite (frame_is_bytes command Hb).
  unfold bind at 1. cbn [modify]. unfold bind at 1. cbn [modify].
  change (with_ack_received false _) with (armed command s).
  unfold waited.
  pose proof (wait_total wait_fuel 5 0 51 (armed command s) polls_5s) as Hw.
  unfold bind at 1.
  destruct (wait_for_ack wait_fuel 5 0 (armed command s)) as [s3 r].
  cbn [fst snd] in *. subst r.
  unfold bind, get. destruct (_ack_received s3); reflexivity.
Qed.

Lemma waited_link (command : list Z) s :
  same_link (armed command s) (waited command s).
Proof. apply wait_keeps_link. Qed.

Lemma send_command_written (command : list Z) s :
  reachable s = true ->
  forallb Py.is_byte command = true ->
  written (fst (_send_command command s))
  = written s ++ [command ++ [_calculate_checksum command]].
Proof.
  intros Hr Hb. rewrite (send_command_eq command s Hr Hb). cbn [fst].
  destruct (waited_link command s) as (_ & _ & W). rewrite W. reflexivity.
Qed.

Lemma send_command_reachable (command : list Z) s :
  reachable s = true ->
  forallb Py.is_byte command = true ->
  reachable (fst (_send_command command s)) = true.
Proof.
  intros Hr Hb. rewrite (send_command_eq command s Hr Hb). cbn [fst].
  destruct (waited_link command s) as (C & _ & _).
  unfold reachable. rewrite C. reflexivity.
Qed.

(** ** Claims about the notification handler *)

(** C8: every notification of exactly four bytes, whatever its content, is
    taken as an acknowledgement: the handler returns normally, the flag
    [_ack_received] is raised, the callback is called once, and no
    attribute of the device state changes. *)
Theorem four_bytes_acknowledge (data : list Z) (s : HelloFairyAPI) :
  length data = 4%nat ->
  snd (_handle_notification data s) = Ok tt
  /\ _ack_received (fst (_handle_notification data s)) = true
  /\ updates (fst (_handle_notification data s)) = S (updates s)
  /\ state (fst (_handle_notification data s)) = state s
  /\ brightness (fst (_handle_notification data s)) = brightness s
  /\ color (fst (_handle_notification data s)) = color s
  /\ hsv (fst (_handle_notification data s)) = hsv s
  /\ current_preset (fst (_handle_notification data s)) = current_preset s
  /\ mode (fst (_handle_notification data s)) = mode s.
Proof.
  intros H. rewrite (handle_ack data s H). cbn. repeat split.
Qed.

Lemma four_bytes_acknowledge_witness :
  _ack_received
    (fst (_handle_notification [1; 2; 3; 4]
            (armed [Const.CMD_PREFIX; Const.CMD_POWER; 1; 1] (init true []))))
  = true.
Proof.
  exact (proj1 (proj2 (four_bytes_acknowledge [1; 2; 3; 4]
    (armed [Const.CMD_PREFIX; Const.CMD_POWER; 1; 1] (init true [])) eq_refl))).
Defined.

(** C10: in a status frame of twelve bytes or more, byte 6 means power on
    only when it is exactly 1; with any other value the handler stores
    power off, calls the callback and returns on the power-off path,
    leaving mode and colour data as they were. *)
Theorem byte6_other_than_1_is_off (data : list Z) (s : HelloFairyAPI) :
  (12 <= length data)%nat ->
  nth 6 data 0 <> 1 ->
  snd (_handle_notification data s) = Ok tt
  /\ state (fst (_handle_notification data s)) = Some false
  /\ updates (fst (_handle_notification data s)) = S (updates s)
  /\ mode (fst (_handle_notification data s)) = mode s.
Proof.
  intros Hlen Hb. rewrite (handle_off data s Hlen Hb). cbn. repeat split.
Qed.

Lemma byte6_other_than_1_is_off_witness :
  state (fst (_handle_notification
                [0; 0; 0; 0; 0; 0; 255; 1; 0; 45; 0; 250; 1; 244] lit_color))
  = Some false.
Proof.
  refine (proj1 (proj2 (byte6_other_than_1_is_off
    [0; 0; 0; 0; 0; 0; 255; 1; 0; 45; 0; 250; 1; 244] lit_color _ _))).
  - cbn. lia.
  - cbn. lia.
Defined.

(** C1 (as the code has it): a status frame reporting power off stores
    power off, and mode, hsv, rgb, preset and brightness stay what they
    were; they are not cleared. *)
Theorem status_off_keeps_derived_state (data : list Z) (s : HelloFairyAPI) :
  (12 <= length data)%nat ->
  nth 6 data 0 = 0 ->
  state (fst (_handle_notification data s)) = Some false
  /\ mode (fst (_handle_notification data s)) = mode s
  /\ hsv (fst (_handle_notification data s)) = hsv s
  /\ color (fst (_handle_notification data s)) = color s
  /\ current_preset (fst (_handle_notification data s)) = current_preset s
  /\ brightness (fst (_handle_notification data s)) = brightness s.
Proof.
  intros Hlen Hb.
  rewrite (handle_off data s Hlen) by (rewrite Hb; discriminate).
  cbn. repeat split.
Qed.

Lemma status_off_keeps_derived_state_witness :
  state (fst (_handle_notification frame_off lit_color)) = Some false
  /\ mode (fst (_handle_notification frame_off lit_color)) = Some 1
  /\ hsv (fst (_handle_notification frame_off lit_color)) = Some (45, 25, 50)
  /\ color (fst (_handle_notification frame_off lit_color)) = Some (127, 119, 95)
  /\ current_preset (fst (_handle_notification frame_off lit_color)) = None
  /\ brightness (fst (_handle_notification frame_off lit_color)) = Some 50.
Proof.
  refine (status_off_keeps_derived_state frame_off lit_color _ _).
  - cbn. lia.
  - reflexivity.
Defined.

(** C2 (as the code has it): the handler does not preserve the invariant.
    From any state that satisfies it and holds a colour, a status frame
    with byte 6 other than 1 leads to a state that violates it: the power
    is off and hsv is still populated. *)
Theorem status_off_breaks_invariant (data : list Z) (s : HelloFairyAPI) :
  (12 <= length data)%nat ->
  nth 6 data 0 <> 1 ->
  invariant s = true ->
  is_some (hsv s) = true ->
  invariant (fst (_handle_notification data s)) = false.
Proof.
  intros Hlen Hb _ Hh. rewrite (handle_off data s Hlen Hb).
  unfold invariant, is_off. cbn. rewrite Hh. cbn.
  apply andb_false_r.
Qed.

Lemma status_off_breaks_invariant_witness :
  invariant lit_color = true
  /\ invariant (fst (_handle_notification frame_off lit_color)) = false.
Proof.
  split.
  - reflexivity.
  - refine (status_off_breaks_invariant frame_off lit_color _ _ _ _).
    + cbn. lia.
    + cbn. lia.
    + reflexivity.
    + reflexivity.
Defined.

(** C3 (as the code has it): a frame of twelve or thirteen bytes with byte
    6 = 1 and byte 7 = 1 makes the handler read past the end: it raises
    IndexError, after having stored power on and mode 1. *)
Theorem short_color_status_raises (data : list Z) (s : HelloFairyAPI) :
  (12 <= length data < 14)%nat ->
  nth 6 data 0 = 1 ->
  nth 7 data 0 = 1 ->
  snd (_handle_notification data s) = Raise IndexError
  /\ state (fst (_handle_notification data s)) = Some true
  /\ mode (fst (_handle_notification data s)) = Some 1
  /\ updates (fst (_handle_notification data s)) = updates s.
Proof.
  intros Hlen H6 H7. rewrite (handle_color_short data s Hlen H6 H7).
  cbn. repeat split.
Qed.

Lemma short_color_status_raises_witness :
  snd (_handle_notification frame_color_short (init true [])) = Raise IndexError.
Proof.
  refine (proj1 (short_color_status_raises frame_color_short (init true []) _ _ _)).
  - cbn. lia.
  - reflexivity.
  - reflexivity.
Defined.

(** On bytes [(hi << 8) | lo] is the big-endian value [256 * hi + lo]. *)
Lemma be16_value (hi lo : Z) :
  0 <= lo < 256 -> be16 hi lo = 256 * hi + lo.
Proof.
  intros Hlo. unfold be16. rewrite Z.shiftl_mul_pow2 by lia.
  assert (D : Z.land (hi * 2 ^ 8) lo = 0).
  { apply Z.bits_inj'. intros n Hn.
    rewrite Z.land_spec, Z.bits_0.
    destruct (Z.ltb_spec n 8).
    - rewrite Z.mul_pow2_bits_low by lia. reflexivity.
    - rewrite <- (Z.mod_small lo (2 ^ 8)) by (change (2 ^ 8) with 256; lia).
      rewrite Z.mod_pow2_bits_high by lia. apply andb_false_r. }
  rewrite <- Z.lxor_lor by exact D.
  rewrite <- Z.add_nocarry_lxor by exact D.
  change (2 ^ 8) with 256. lia.
Qed.

(** C6 (amended): a frame of at least twelve bytes with byte 6 = 1 and
    byte 7 = 2 is decoded as a preset status: the handler returns
    normally, the preset becomes byte 8, the brightness becomes the
    big-endian value of bytes 9 and 10 divided by 10 rounding down, power
    and mode become on and 2, and the callback is called once. *)
Theorem preset_status_decoded (data : list Z) (s : HelloFairyAPI) :
  (12 <= length data)%nat ->
  forallb Py.is_byte data = true ->
  nth 6 data 0 = 1 ->
  nth 7 data 0 = 2 ->
  snd (_handle_notification data s) = Ok tt
  /\ current_preset (fst (_handle_notification data s)) = Some (nth 8 data 0)
  /\ brightness (fst (_handle_notification data s))
     = Some ((256 * nth 9 data 0 + nth 10 data 0) / 10)
  /\ state (fst (_handle_notification data s)) = Some true
  /\ mode (fst (_handle_notification data s)) = Some 2
  /\ updates (fst (_handle_notification data s)) = S (updates s).
Proof.
  intros Hlen Hb H6 H7. rewrite (handle_preset data s Hlen H6 H7). cbn.
  rewrite be16_value; [repeat split |].
  rewrite forallb_forall in Hb.
  assert (Hin : In (nth 10 data 0) data) by (apply nth_In; lia).
  specialize (Hb _ Hin). unfold Py.is_byte in Hb.
  apply andb_prop in Hb. destruct Hb as [H0 H1].
  apply Z.leb_le in H0. apply Z.ltb_lt in H1. lia.
Qed.

Lemma preset_status_decoded_witness :
  current_preset (fst (_handle_notification frame_preset (init true []))) = Some 17
  /\ brightness (fst (_handle_notification frame_preset (init true []))) = Some 50.
Proof.
  pose proof (preset_status_decoded frame_preset (init true [])
                ltac:(cbn; lia) eq_refl eq_refl eq_refl) as H.
  split.
  - exact (proj1 (proj2 H)).
  - exact (proj1 (proj2 (proj2 H))).
Defined.

(** C6 (as stated) fails at eleven bytes: the frame has byte 6 = 1 and
    byte 7 = 2, yet it is dropped: no preset, no brightness, no call of
    the callback. *)
Lemma preset_status_of_11_bytes_dropped :
  length frame_preset_short = 11%nat
  /\ nth 6 frame_preset_short 0 = 1
  /\ nth 7 frame_preset_short 0 = 2
  /\ nth 8 frame_preset_short 0 = 17
  /\ _handle_notification frame_preset_short (init true []) = (init true [], Ok tt)
  /\ current_preset (fst (_handle_notification frame_preset_short (init true [])))
     = None
  /\ updates (fst (_handle_notification frame_preset_short (init true []))) = 0%nat.
Proof. repeat split. Qed.

(** ** Claims about _send_command *)

(** C7: for every command list of bytes that the link can carry, sending
    writes exactly one frame, the command followed by one byte which is
    the sum of the bytes before it modulo 256; stripping that last byte
    and summing again gives it back. *)
Theorem send_appends_checksum (command : list Z) (s : HelloFairyAPI) :
  reachable s = true ->
  forallb Py.is_byte command = true ->
  exists frame,
    written (fst (_send_command command s)) = written s ++ [frame]
    /\ frame = command ++ [Py.sum command mod 256]
    /\ length frame = S (length command)
    /\ last frame 0 = _calculate_checksum (removelast frame).
Proof.
  intros Hr Hb. exists (command ++ [_calculate_checksum command]).
  split; [now apply send_command_written |].
  split; [reflexivity |].
  split.
  - rewrite length_app. cbn. lia.
  - rewrite last_last, removelast_last. reflexivity.
Qed.

Lemma send_appends_checksum_witness :
  exists frame,
    written (fst (_send_command [0xAA; 0x02; 0x01; 0x01] (init true [])))
    = written (init true []) ++ [frame]
    /\ frame = [0xAA; 0x02; 0x01; 0x01] ++ [Py.sum [0xAA; 0x02; 0x01; 0x01] mod 256]
    /\ length frame = 5%nat
    /\ last frame 0 = _calculate_checksum (removelast frame).
Proof.
  exact (send_appends_checksum [0xAA; 0x02; 0x01; 0x01] (init true [])
           eq_refl eq_refl).
Defined.

Lemma waited_silent (command : list Z) (s : HelloFairyAPI) :
  silent 51 (inbox s) = true -> _ack_received (waited command s) = false.
Proof.
  intros H. unfold waited.
  apply (wait_silent wait_fuel 5 0 51 (armed command s) polls_5s);
    [reflexivity | exact H].
Qed.

(** C4 (amended): when no notification of four bytes arrives during the
    51 polls of the wait loop, the send raises TimeoutError and leaves
    [_ack_received] false: the flag is not reset.  A new command is not
    held back by it, because sending never reads the flag before writing:
    the next frame is written at once. *)
Theorem unacknowledged_send_times_out (command : list Z) (s : HelloFairyAPI) :
  reachable s = true ->
  forallb Py.is_byte command = true ->
  silent 51 (inbox s) = true ->
  snd (_send_command command s) = Raise TimeoutError
  /\ _ack_received (fst (_send_command command s)) = false
  /\ forall next,
       forallb Py.is_byte next = true ->
       written (fst (_send_command next (fst (_send_command command s))))
       = written (fst (_send_command command s))
         ++ [next ++ [_calculate_checksum next]].
Proof.
  intros Hr Hb Hs. split; [| split].
  - rewrite (send_command_eq command s Hr Hb). cbn [snd].
    now rewrite (waited_silent command s Hs).
  - rewrite (send_command_eq command s Hr Hb). cbn [fst].
    exact (waited_silent command s Hs).
  - intros next Hn. apply send_command_written; [| exact Hn].
    now apply send_command_reachable.
Qed.

Lemma unacknowledged_send_times_out_witness :
  snd (_send_command [0xAA; 0x02; 0x01; 0x01] (init true [[frame_off]]))
  = Raise TimeoutError.
Proof.
  exact (proj1 (unacknowledged_send_times_out [0xAA; 0x02; 0x01; 0x01]
                  (init true [[frame_off]]) eq_refl eq_refl eq_refl)).
Defined.

(** C4 (as stated) fails: after the timeout the flag is still down, the
    expectation set by the abandoned command has not been cleared. *)
Lemma timeout_leaves_flag_down :
  snd (_send_command [0xAA; 0x02; 0x01; 0x01] (init true [])) = Raise TimeoutError
  /\ _ack_received (init true []) = true
  /\ _ack_received (fst (_send_command [0xAA; 0x02; 0x01; 0x01] (init true [])))
     = false.
Proof. vm_compute. repeat split. Qed.

(** The loop polls 51 times, not 50: fifty additions of 0.1 stay below
    5.0 in binary64.  An acknowledgement in the 51st poll is accepted; one
    in the 52nd comes too late. *)
Lemma ack_in_poll_51_accepted :
  snd (_send_command [0xAA; 0x02; 0x01; 0x01]
         (init true (repeat [] 50 ++ [[Const.ACK2]]))) = Ok tt
  /\ snd (_send_command [0xAA; 0x02; 0x01; 0x01]
            (init true (repeat [] 51 ++ [[Const.ACK2]]))) = Raise TimeoutError.
Proof. vm_compute. split; reflexivity. Qed.

(** ** Claims about set_power *)

Lemma set_power_written (on : bool) (s : HelloFairyAPI) :
  state_is on s = false ->
  reachable s = true ->
  written (fst (set_power on s))
  = written s
    ++ [[Const.CMD_PREFIX; Const.CMD_POWER; 1; if on then 1 else 0]
        ++ [_calculate_checksum
              [Const.CMD_PREFIX; Const.CMD_POWER; 1; if on then 1 else 0]]].
Proof.
  intros Hs Hr. unfold set_power. unfold bind at 1. cbn [get]. rewrite Hs.
  unfold bind at 1.
  rewrite send_command_eq by (assumption || (destruct on; reflexivity)).
  match goal with
  | |- context [waited ?c s] => destruct (waited_link c s) as (_ & _ & W);
                                  destruct (_ack_received (waited c s))
  end.
  - destruct on; cbn; rewrite W; reflexivity.
  - cbn [fst]. rewrite W. reflexivity.
Qed.

(** C5 (amended): whenever [set_power(on)] sends, the bytes written are
    [0xAA, 0x02, 0x01, b, checksum] with [b] = 0x01 for on and 0x00 for
    off: the length byte is 1 and it counts the single payload byte [b]
    that follows it. *)
Theorem set_power_frame (on : bool) (s : HelloFairyAPI) :
  state_is on s = false ->
  reachable s = true ->
  written (fst (set_power on s))
  = written s ++ [Spec.encode_command Const.CMD_POWER [if on then 0x01 else 0x00]]
  /\ Spec.encode_command Const.CMD_POWER [if on then 0x01 else 0x00]
     = [0xAA; 0x02; 0x01; if on then 0x01 else 0x00; if on then 0xAE else 0xAD].
Proof.
  intros Hs Hr. rewrite (set_power_written on s Hs Hr).
  destruct on; split; reflexivity.
Qed.

Lemma set_power_frame_witness :
  written (fst (set_power false lit_color))
  = written lit_color ++ [[0xAA; 0x02; 0x01; 0x00; 0xAD]].
Proof.
  exact (proj1 (set_power_frame false lit_color eq_refl eq_refl)).
Defined.

(** C5 (as stated) fails: with a payload of the two bytes [0x01, 0x01] and
    a length byte counting them, the frame would be
    [AA 02 02 01 01 B0]; the code writes [AA 02 01 01 AE]. *)
Lemma power_frame_is_not_two_byte_payload :
  state_is true (init true []) = false
  /\ written (fst (set_power true (init true []))) = [[0xAA; 0x02; 0x01; 0x01; 0xAE]]
  /\ Spec.encode_command Const.CMD_POWER (Spec.power_payload true)
     = [0xAA; 0x02; 0x02; 0x01; 0x01; 0xB0]
  /\ written (fst (set_power true (init true [])))
     <> [Spec.encode_command Const.CMD_POWER (Spec.power_payload true)].
Proof.
  vm_compute. repeat split. discriminate.
Qed.

(** ** Claims about set_color_rgb *)

Lemma send_command_unreachable (command : list Z) s :
  reachable s = false -> _send_command command s = (s, Raise ConnectionError).
Proof.
  intros H. unfold reachable in H. apply orb_false_elim in H.
  destruct H as [Hc Hl].
  unfold _send_command, _ensure_connected, bind, get.
  rewrite Hc, Hl. reflexivity.
Qed.

Lemma send_command_not_bytes (command : list Z) s :
  reachable s = true ->
  forallb Py.is_byte command = false ->
  _send_command command s = (with_client_connected true s, Raise ValueError).
Proof.
  intros Hr Hb. unfold _send_command.
  rewrite (bind_ok _ _ _ _ _ (ensure_connected_ok s Hr)).
  unfold write_gatt_char. rewrite forallb_app, Hb. reflexivity.
Qed.

(** A send that returns has written its frame and seen the flag raised. *)
Lemma send_command_returns (command : list Z) s s' :
  _send_command command s = (s', Ok tt) ->
  written s' = written s ++ [command ++ [_calculate_checksum command]]
  /\ _ack_received s' = true.
Proof.
  intros H.
  destruct (reachable s) eqn:Hr;
    [| rewrite (send_command_unreachable command s Hr) in H; discriminate].
  destruct (forallb Py.is_byte command) eqn:Hb;
    [| rewrite (send_command_not_bytes command s Hr Hb) in H; discriminate].
  rewrite (send_command_eq command s Hr Hb) in H.
  destruct (_ack_received (waited command s)) eqn:Ha; [| discriminate].
  injection H as <-. split; [| exact Ha].
  destruct (waited_link command s) as (_ & _ & W). rewrite W. reflexivity.
Qed.

(** What [set_color_hsv] has stored and sent when it returns. *)
Lemma set_color_hsv_returns (h s v : Z) (st st' : HelloFairyAPI) :
  set_color_hsv h s v st = (st', Ok tt) ->
  hsv st' = Some (clamp 0 359 h, clamp 0 100 s, clamp 0 100 v)
  /\ brightness st' = Some (clamp 0 100 v)
  /\ mode st' = Some Const.MODE_COLOR
  /\ current_preset st' = None
  /\ color st' = Some (rgb_of_hsv (clamp 0 359 h) (clamp 0 100 s) (clamp 0 100 v))
  /\ last (written st') []
     = color_command (clamp 0 359 h) (clamp 0 100 s) (clamp 0 100 v)
       ++ [_calculate_checksum
             (color_command (clamp 0 359 h) (clamp 0 100 s) (clamp 0 100 v))].
Proof.
  unfold set_color_hsv. unfold bind at 1. cbn [get]. intros H.
  apply bind_ok_inv in H. destruct H as (s1 & [] & _ & H).
  apply bind_ok_inv in H. destruct H as (s2 & [] & Hsend & H).
  apply send_command_returns in Hsend. destruct Hsend as [W _].
  cbv [bind modify] in H. injection H as <-. cbn.
  rewrite W, last_last. repeat split.
Qed.

Lemma hsv_of_black (prior : option Z) :
  hsv_of_rgb prior 0 0 0 = (0, 0, Py.or_default prior 50).
Proof. reflexivity. Qed.

Lemma read_back_saturated (prior : option Z) (r g b : Z) :
  saturated r g b = true -> read_back prior r g b = (r, g, b).
Proof.
  unfold saturated. intros H.
  repeat match goal with
         | H : _ && _ = true |- _ => apply andb_prop in H; destruct H
         | H : _ || _ = true |- _ => apply orb_prop in H; destruct H
         | H : (_ =? _) = true |- _ => apply Z.eqb_eq in H; subst
         end;
    solve [reflexivity | discriminate].
Qed.

Lemma greys_checked : forallb grey_within_3 greys = true.
Proof. vm_compute. reflexivity. Qed.

Lemma in_greys (x : Z) : 1 <= x <= 255 -> In x greys.
Proof.
  intros H. unfold greys. apply in_map_iff. exists (Z.to_nat x).
  split; [lia |]. apply in_seq. lia.
Qed.

Lemma hsv_of_rgb_prior (prior : option Z) (r g b : Z) :
  has_value r g b = true -> hsv_of_rgb prior r g b = hsv_of_rgb None r g b.
Proof.
  unfold has_value, hsv_of_rgb.
  destruct (colorsys.rgb_to_hsv _ _ _) as [[h s] v].
  intros ->. reflexivity.
Qed.

Lemma read_back_grey (prior : option Z) (x : Z) :
  1 <= x <= 255 ->
  exists y, read_back prior x x x = (y, y, y) /\ x - 3 <= y <= x.
Proof.
  intros Hx. pose proof greys_checked as G.
  rewrite forallb_forall in G. specialize (G x (in_greys x Hx)).
  unfold grey_within_3 in G.
  destruct (read_back None x x x) as [[r g] b] eqn:E.
  repeat match type of G with
         | _ && _ = true => apply andb_prop in G; destruct G as [G ?]
         end.
  unfold read_back, stored_hsv in *.
  rewrite (hsv_of_rgb_prior prior x x x G), E.
  exists r. split; [f_equal; [f_equal |]; lia | lia].
Qed.

(** The round trip through whole degrees and percents loses more than 1
    per channel: [(4, 4, 4)] is read back as [(2, 2, 2)] and
    [(200, 100, 50)] as [(198, 99, 49)]; and pure black after a stored
    brightness of 0 commands and stores 50. *)
Lemma rgb_round_trip_off_by_two :
  snd (set_color_rgb 4 4 4 (with_inbox [[Const.ACK3]] lit_color)) = Ok tt
  /\ color (fst (set_color_rgb 4 4 4 (with_inbox [[Const.ACK3]] lit_color)))
     = Some (2, 2, 2)
  /\ color (fst (set_color_rgb 200 100 50 (with_inbox [[Const.ACK3]] lit_color)))
     = Some (198, 99, 49)
  /\ brightness lit_dark = Some 0
  /\ snd (set_color_rgb 0 0 0 (with_inbox [[Const.ACK3]] lit_dark)) = Ok tt
  /\ brightness (fst (set_color_rgb 0 0 0 (with_inbox [[Const.ACK3]] lit_dark)))
     = Some 50.
Proof. vm_compute. repeat split. Qed.

(** ** set_color_rgb: what is stored *)

Lemma set_color_rgb_returns (r g b h sa v : Z) (s s' : HelloFairyAPI) :
  hsv_of_rgb (brightness s) r g b = (h, sa, v) ->
  set_color_rgb r g b s = (s', Ok tt) ->
  set_color_hsv h sa v s = (s', Ok tt).
Proof.
  intros E. unfold set_color_rgb. unfold bind at 1. cbn [get]. now rewrite E.
Qed.

Lemma set_color_rgb_color (r g b : Z) (s s' : HelloFairyAPI) :
  set_color_rgb r g b s = (s', Ok tt) ->
  color s' = Some (read_back (brightness s) r g b).
Proof.
  intros H. unfold read_back, stored_hsv.
  destruct (hsv_of_rgb (brightness s) r g b) as [[h sa] v] eqn:E.
  apply (set_color_rgb_returns _ _ _ _ _ _ _ _ E) in H.
  apply set_color_hsv_returns in H. now destruct H as (_ & _ & _ & _ & ? & _).
Qed.

(** X25: pure black never commands darkness.  When [set_color_rgb(0, 0, 0)]
    returns, the brightness commanded and stored is the prior brightness
    capped to 100, or 50 when there was none or it was 0, with hue and
    saturation 0; the frame written last carries exactly these values, and
    for a prior brightness a status frame can have reported the value lies
    within 1..100. *)
Theorem black_keeps_brightness (s s' : HelloFairyAPI) :
  set_color_rgb 0 0 0 s = (s', Ok tt) ->
  let v := clamp 0 100 (Py.or_default (brightness s) 50) in
  brightness s' = Some v
  /\ hsv s' = Some (0, 0, v)
  /\ last (written s') []
     = color_command 0 0 v ++ [_calculate_checksum (color_command 0 0 v)]
  /\ (brightness_fits s = true -> 1 <= v <= 100).
Proof.
  intros H v. apply (set_color_rgb_returns _ _ _ _ _ _ _ _
                       (hsv_of_black (brightness s))) in H.
  apply set_color_hsv_returns in H.
  destruct H as (Hh & Hb & _ & _ & _ & Hw).
  split; [exact Hb |]. split; [exact Hh |]. split; [exact Hw |].
  intros Hf. subst v. unfold brightness_fits in Hf. unfold clamp.
  destruct (brightness s) as [[| p | p] |]; cbn [Py.or_default]; try lia;
    apply andb_prop in Hf; destruct Hf as [Hf1 Hf2];
    apply Z.leb_le in Hf1; apply Z.leb_le in Hf2; lia.
Qed.

Lemma black_keeps_brightness_witness :
  brightness (fst (set_color_rgb 0 0 0 (with_inbox [[Const.ACK3]] lit_dark)))
  = Some 50.
Proof.
  refine (proj1 (black_keeps_brightness
    (with_inbox [[Const.ACK3]] lit_dark)
    (fst (set_color_rgb 0 0 0 (with_inbox [[Const.ACK3]] lit_dark))) _)).
  vm_compute. reflexivity.
Defined.

(** X26: the colours that come back as sent, and the greys.  When
    [set_color_rgb(r, g, b)] returns, a saturated colour (every channel 0
    or 255, not all 0) is stored as the rgb it was given, and a grey
    [(x, x, x)] with [1 <= x <= 255] is stored as a grey between [x - 3]
    and [x]: the whole percents of the brightness lose up to 3 of 255. *)
Theorem saturated_and_grey_read_back (r g b : Z) (s s' : HelloFairyAPI) :
  set_color_rgb r g b s = (s', Ok tt) ->
  (saturated r g b = true -> color s' = Some (r, g, b))
  /\ (1 <= r <= 255 -> g = r -> b = r ->
      exists y, color s' = Some (y, y, y) /\ r - 3 <= y <= r).
Proof.
  intros H. apply set_color_rgb_color in H. split.
  - intros Hs. now rewrite H, (read_back_saturated _ r g b Hs).
  - intros Hr -> ->. destruct (read_back_grey (brightness s) r Hr) as (y & E & B).
    exists y. now rewrite H, E.
Qed.

Lemma saturated_and_grey_read_back_witness :
  color (fst (set_color_rgb 255 255 0 (with_inbox [[Const.ACK3]] lit_preset)))
  = Some (255, 255, 0).
Proof.
  refine (proj1 (saturated_and_grey_read_back 255 255 0
    (with_inbox [[Const.ACK3]] lit_preset)
    (fst (set_color_rgb 255 255 0 (with_inbox [[Const.ACK3]] lit_preset))) _) _).
  - vm_compute. reflexivity.
  - reflexivity.
Defined.

(** ** The public operations and the invariant *)

Lemma same_device_refl s : same_device s s.
Proof. now repeat split. Qed.

Lemma same_device_trans s1 s2 s3 :
  same_device s1 s2 -> same_device s2 s3 -> same_device s1 s3.
Proof.
  intros (A1 & B1 & C1 & D1 & E1 & F1) (A2 & B2 & C2 & D2 & E2 & F2).
  repeat split; congruence.
Qed.

Lemma invariant_same_device s s' :
  same_device s s' -> invariant s' = invariant s.
Proof.
  intros (A & B & C & D & E & F). unfold invariant, is_off.
  now rewrite A, C, D, E, F.
Qed.

Lemma calm_refl s : calm s s.
Proof. intros H. split; [apply same_device_refl | exact H]. Qed.

Lemma calm_trans s1 s2 s3 : calm s1 s2 -> calm s2 s3 -> calm s1 s3.
Proof.
  intros H12 H23 H1. destruct (H12 H1) as [D12 H2].
  destruct (H23 H2) as [D23 H3]. split; [| exact H3].
  eapply same_device_trans; eassumption.
Qed.

Lemma deliver_acks (frames : list (list Z)) :
  forallb (fun data => Z.of_nat (length data) =? 4) frames = true ->
  forall s, same_device s (deliver frames s)
            /\ inbox (deliver frames s) = inbox s.
Proof.
  unfold deliver. induction frames as [| data frames IH]; intros H s.
  - split; [apply same_device_refl | reflexivity].
  - cbn [forallb] in H. apply andb_prop in H. destruct H as [H4 Hrest].
    cbn [fold_left]. apply Z.eqb_eq in H4.
    rewrite (handle_ack data s) by lia. cbn [fst].
    destruct (IH Hrest (with_updates (S (updates s)) (with_ack_received true s)))
      as [D I].
    split; [| now rewrite I].
    eapply same_device_trans; [| exact D]. now repeat split.
Qed.

Lemma sleep_calm : keeps calm sleep.
Proof.
  intros s H. unfold sleep.
  destruct (inbox s) as [| frames rest] eqn:E; cbn [fst].
  - split; [apply same_device_refl | now rewrite E].
  - unfold acks_only in H. cbn [forallb] in H.
    apply andb_prop in H. destruct H as [Hf Hr].
    destruct (deliver_acks frames Hf (with_inbox rest s)) as [D I].
    split.
    + eapply same_device_trans; [| exact D]. now repeat split.
    + rewrite I. exact Hr.
Qed.

Lemma wait_calm (fuel : nat) (timeout : float) :
  forall elapsed, keeps calm (wait_for_ack fuel timeout elapsed).
Proof.
  induction fuel as [| fuel IH]; intros elapsed s; cbn [wait_for_ack];
    destruct (negb (_ack_received s) && PrimFloat.ltb elapsed timeout);
    cbn [fst]; try apply calm_refl.
  apply (keeps_bind calm calm_trans).
  - apply sleep_calm.
  - intros _. apply IH.
Qed.

Ltac calm_field := intros ?; split; [now repeat split | assumption].

Lemma send_calm (command : list Z) : keeps calm (_send_command command).
Proof.
  pose proof calm_refl as Hr. pose proof calm_trans as Ht.
  unfold _send_command, _ensure_connected, write_gatt_char.
  apply keeps_bind; [assumption | | intros _].
  { apply keeps_bind; [assumption | keeps_steps | intro s0].
    destruct (client_connected s0); [keeps_steps |].
    destruct (link_ok s0); keeps_steps. calm_field. }
  apply keeps_bind; [assumption | | intros _].
  { destruct (forallb Py.is_byte _); keeps_steps. calm_field. }
  apply keeps_bind; [assumption | | intros _].
  { keeps_steps. calm_field. }
  apply keeps_bind; [assumption | apply wait_calm | intros _].
  apply keeps_bind; [assumption | keeps_steps | intro s0].
  destruct (negb (_ack_received s0)); keeps_steps.
Qed.

Lemma invariant_power_on s :
  invariant s = true -> invariant (with_state (Some true) s) = true.
Proof.
  unfold invariant, is_off. cbn. intros H.
  apply andb_prop in H. destruct H as [H _]. now rewrite H.
Qed.

(** [set_power] under acknowledgements only: the invariant survives, and a
    return means the requested power is stored. *)
Lemma set_power_calm (on : bool) (s : HelloFairyAPI) :
  acks_only (inbox s) = true ->
  invariant s = true ->
  acks_only (inbox (fst (set_power on s))) = true
  /\ invariant (fst (set_power on s)) = true
  /\ (snd (set_power on s) = Ok tt -> state (fst (set_power on s)) = Some on).
Proof.
  intros Ha Hi. remember (set_power on s) as r eqn:Er.
  unfold set_power in Er. unfold bind at 1 in Er. cbn [get] in Er.
  destruct (state_is on s) eqn:Es.
  - subst r. cbn. split; [assumption | split; [assumption |]].
    intros _. unfold state_is in Es. destruct (state s) as [b |]; [| discriminate].
    apply eqb_prop in Es. now subst b.
  - unfold bind at 1 in Er.
    pose proof (send_calm
      [Const.CMD_PREFIX; Const.CMD_POWER; 1; if on then 1 else 0] s Ha) as C.
    destruct (_send_command _ s) as [s1 [[] | e]]; cbn [fst] in C;
      destruct C as [D A]; pose proof (invariant_same_device _ _ D) as I;
      rewrite Hi in I; subst r.
    + destruct on; cbn; (split; [assumption | split; [| reflexivity]]).
      * now apply invariant_power_on.
      * reflexivity.
    + cbn. split; [assumption | split; [assumption | discriminate]].
Qed.

(** The power-on step that opens [set_color_hsv] and [set_preset]. *)
Lemma power_on_first_calm (st : HelloFairyAPI) :
  acks_only (inbox st) = true ->
  invariant st = true ->
  acks_only
    (inbox (fst ((if is_off st then set_power true ;; sleep else ret tt) st)))
  = true
  /\ invariant (fst ((if is_off st then set_power true ;; sleep else ret tt) st))
     = true
  /\ (snd ((if is_off st then set_power true ;; sleep else ret tt) st) = Ok tt ->
      state (fst ((if is_off st then set_power true ;; sleep else ret tt) st))
      = Some true).
Proof.
  intros Ha Hi.
  remember ((if is_off st then set_power true ;; sleep else ret tt) st) as r eqn:Er.
  destruct (is_off st) eqn:Eo.
  - unfold bind in Er.
    destruct (set_power_calm true st Ha Hi) as (A1 & I1 & S1).
    destruct (set_power true st) as [s1 [[] | e]]; cbn [fst snd] in *.
    + destruct (sleep_calm s1 A1) as [D A2]. pose proof (sleep_ok s1) as Hok.
      destruct (sleep s1) as [s2 r2]. cbn [fst snd] in *. subst r2 r.
      cbn [fst snd]. split; [exact A2 | split].
      * now rewrite (invariant_same_device _ _ D).
      * intros _. destruct D as (D & _). rewrite D. now apply S1.
    + subst r. cbn. split; [assumption | split; [assumption | discriminate]].
  - subst r. cbn. split; [assumption | split; [assumption |]].
    intros _. unfold is_off in Eo.
    destruct (state st) as [[|] |]; now try discriminate.
Qed.

Lemma set_color_hsv_calm (h sa v : Z) (st : HelloFairyAPI) :
  acks_only (inbox st) = true ->
  invariant st = true ->
  invariant (fst (set_color_hsv h sa v st)) = true.
Proof.
  intros Ha Hi. remember (set_color_hsv h sa v st) as r eqn:Er.
  unfold set_color_hsv in Er. unfold bind at 1 in Er. cbn [get] in Er.
  unfold bind at 1 in Er.
  destruct (power_on_first_calm st Ha Hi) as (A1 & I1 & S1).
  destruct ((if is_off st then set_power true ;; sleep else ret tt) st)
    as [s1 [[] | e]]; cbn [fst snd] in *; [| now subst r].
  specialize (S1 eq_refl). unfold bind at 1 in Er.
  destruct (send_calm
    (color_command (clamp 0 359 h) (clamp 0 100 sa) (clamp 0 100 v)) s1 A1)
    as [D _].
  destruct (_send_command _ s1) as [s2 [[] | e]]; cbn [fst] in D; subst r.
  - destruct D as (D & _). unfold invariant, is_off. cbn.
    rewrite D, S1. reflexivity.
  - cbn. now rewrite (invariant_same_device _ _ D).
Qed.

Lemma set_preset_calm (preset : Z) (st : HelloFairyAPI) :
  acks_only (inbox st) = true ->
  invariant st = true ->
  invariant (fst (set_preset preset st)) = true.
Proof.
  intros Ha Hi. remember (set_preset preset st) as r eqn:Er.
  unfold set_preset in Er. unfold bind at 1 in Er. cbn [get] in Er.
  unfold bind at 1 in Er.
  destruct (power_on_first_calm st Ha Hi) as (A1 & I1 & S1).
  destruct ((if is_off st then set_power true ;; sleep else ret tt) st)
    as [s1 [[] | e]]; cbn [fst snd] in *; [| now subst r].
  specialize (S1 eq_refl). unfold bind at 1 in Er. cbn [get] in Er.
  unfold bind at 1 in Er.
  match type of Er with
  | context [_send_command ?c s1] => destruct (send_calm c s1 A1) as [D _]
  end.
  destruct (_send_command _ s1) as [s2 [[] | e]]; cbn [fst] in D; subst r.
  - destruct D as (D & _). unfold invariant, is_off. cbn.
    rewrite D, S1. reflexivity.
  - cbn. now rewrite (invariant_same_device _ _ D).
Qed.

(** X1: while the transport delivers nothing but acknowledgements, every
    public operation preserves the state invariant, whether it returns or
    raises: [set_power], [set_color_hsv], [set_color_rgb],
    [set_brightness], [set_preset] and [set_effect]. *)
Theorem operations_preserve_invariant (s : HelloFairyAPI) :
  acks_only (inbox s) = true ->
  invariant s = true ->
  (forall on, invariant (fst (set_power on s)) = true)
  /\ (forall h sa v, invariant (fst (set_color_hsv h sa v s)) = true)
  /\ (forall r g b, invariant (fst (set_color_rgb r g b s)) = true)
  /\ (forall level, invariant (fst (set_brightness level s)) = true)
  /\ (forall preset, invariant (fst (set_preset preset s)) = true)
  /\ (forall name, invariant (fst (set_effect name s)) = true).
Proof.
  intros Ha Hi. repeat split.
  - intros on. now destruct (set_power_calm on s Ha Hi) as (_ & I & _).
  - intros h sa v. now apply set_color_hsv_calm.
  - intros r g b. unfold set_color_rgb. unfold bind at 1. cbn [get].
    destruct (hsv_of_rgb (brightness s) r g b) as [[h sa] v].
    now apply set_color_hsv_calm.
  - intros level. unfold set_brightness. unfold bind at 1. cbn [get].
    destruct (is_off s); [exact Hi |].
    destruct (hsv s) as [[[h sa] v] |]; now apply set_color_hsv_calm.
  - intros preset. now apply set_preset_calm.
  - intros name. unfold set_effect.
    destruct (lookup_effect name Const.EFFECT_PRESETS); [| exact Hi].
    now apply set_preset_calm.
Qed.

Lemma operations_preserve_invariant_witness :
  invariant (fst (set_preset 17 (with_inbox [[Const.ACK3]] lit_color))) = true.
Proof.
  exact (proj1 (proj2 (proj2 (proj2 (proj2
    (operations_preserve_invariant (with_inbox [[Const.ACK3]] lit_color)
       eq_refl eq_refl))))) 17).
Defined.

(** ** Further properties of the handler and of the operations *)

Lemma handle_color (data : list Z) (s : HelloFairyAPI) :
  (14 <= length data)%nat -> nth 6 data 0 = 1 -> nth 7 data 0 = 1 ->
  _handle_notification data s
  = (let h := be16 (nth 8 data 0) (nth 9 data 0) in
     let sa := be16 (nth 10 data 0) (nth 11 data 0) / 10 in
     let v := be16 (nth 12 data 0) (nth 13 data 0) / 10 in
     with_updates (S (updates s))
       (with_color (Some (rgb_of_hsv h sa v))
          (with_brightness (Some v)
             (with_hsv (Some (h, sa, v))
                (with_mode (Some 1) (with_state (Some true) s))))),
     Ok tt).
Proof.
  intros Hlen H6 H7. past_length_tests.
  rewrite (bind_ok _ _ s s (nth 6 data 0)) by (apply item_in; lia).
  rewrite H6. cbn [Z.eqb Pos.eqb negb].
  unfold bind at 1. cbn [modify].
  rewrite (bind_ok _ _ _ _ (nth 7 data 0)) by (apply item_in; lia).
  rewrite H7. cbn [Z.eqb Pos.eqb].
  unfold bind at 1. cbn [modify].
  unfold bind at 1.
  rewrite (bind_ok _ _ _ _ (nth 8 data 0)) by (apply item_in; lia).
  rewrite (bind_ok _ _ _ _ (nth 9 data 0)) by (apply item_in; lia).
  rewrite (bind_ok _ _ _ _ (nth 10 data 0)) by (apply item_in; lia).
  rewrite (bind_ok _ _ _ _ (nth 11 data 0)) by (apply item_in; lia).
  rewrite (bind_ok _ _ _ _ (nth 12 data 0)) by (apply item_in; lia).
  rewrite (bind_ok _ _ _ _ (nth 13 data 0)) by (apply item_in; lia).
  reflexivity.
Qed.

Lemma byte_at (data : list Z) (i : nat) :
  forallb Py.is_byte data = true -> (i < length data)%nat ->
  0 <= nth i data 0 < 256.
Proof.
  intros Hb Hi. rewrite forallb_forall in Hb.
  specialize (Hb _ (nth_In data 0 Hi)). unfold Py.is_byte in Hb.
  apply andb_prop in Hb. destruct Hb as [H0 H1].
  apply Z.leb_le in H0. apply Z.ltb_lt in H1. lia.
Qed.

(** X2: a frame of at least fourteen bytes with byte 6 = 1 and byte 7 = 1
    is decoded as a colour status: H is the big-endian value of bytes 8-9,
    S and V those of bytes 10-11 and 12-13 divided by 10 rounding down;
    hsv, brightness = V and the converted rgb are stored, power and mode
    become on and 1, the callback is called once, and the stored preset
    is left as it was. *)
Theorem color_status_decoded (data : list Z) (s : HelloFairyAPI) :
  (14 <= length data)%nat ->
  forallb Py.is_byte data = true ->
  nth 6 data 0 = 1 ->
  nth 7 data 0 = 1 ->
  let h := 256 * nth 8 data 0 + nth 9 data 0 in
  let sa := (256 * nth 10 data 0 + nth 11 data 0) / 10 in
  let v := (256 * nth 12 data 0 + nth 13 data 0) / 10 in
  snd (_handle_notification data s) = Ok tt
  /\ hsv (fst (_handle_notification data s)) = Some (h, sa, v)
  /\ brightness (fst (_handle_notification data s)) = Some v
  /\ color (fst (_handle_notification data s)) = Some (rgb_of_hsv h sa v)
  /\ state (fst (_handle_notification data s)) = Some true
  /\ mode (fst (_handle_notification data s)) = Some 1
  /\ current_preset (fst (_handle_notification data s)) = current_preset s
  /\ updates (fst (_handle_notification data s)) = S (updates s).
Proof.
  intros Hlen Hb H6 H7. rewrite (handle_color data s Hlen H6 H7). cbn.
  rewrite !be16_value by (apply byte_at; [assumption | lia]).
  repeat split.
Qed.

Lemma color_status_decoded_witness :
  hsv (fst (_handle_notification frame_color (init true []))) = Some (45, 25, 50)
  /\ color (fst (_handle_notification frame_color (init true [])))
     = Some (127, 119, 95).
Proof.
  pose proof (color_status_decoded frame_color (init true [])
                ltac:(cbn; lia) eq_refl eq_refl eq_refl) as H.
  split.
  - exact (proj1 (proj2 H)).
  - exact (proj1 (proj2 (proj2 (proj2 H)))).
Defined.

(** X3: a notification that is neither four bytes long nor at least
    twelve is dropped: the handler returns normally and nothing changes,
    the callback is not called. *)
Theorem short_frames_dropped (data : list Z) (s : HelloFairyAPI) :
  length data <> 4%nat ->
  (length data < 12)%nat ->
  _handle_notification data s = (s, Ok tt).
Proof.
  intros H4 H12. unfold _handle_notification.
  destruct (Z.eqb_spec (Z.of_nat (length data)) 4); [lia |].
  destruct (Z.ltb_spec (Z.of_nat (length data)) 12); [| lia].
  reflexivity.
Qed.

Lemma short_frames_dropped_witness :
  _handle_notification [0xAA; 0x02; 0x00; 0xAC; 0x00] lit_color
  = (lit_color, Ok tt).
Proof.
  refine (short_frames_dropped [0xAA; 0x02; 0x00; 0xAC; 0x00] lit_color _ _).
  - discriminate.
  - cbn. lia.
Defined.

Lemma set_power_returns (on : bool) (s s1 : HelloFairyAPI) :
  set_power on s = (s1, Ok tt) -> state s1 = Some on.
Proof.
  unfold set_power. unfold bind at 1. cbn [get]. intros H.
  destruct (state_is on s) eqn:Es.
  - injection H as <-. unfold state_is in Es.
    destruct (state s) as [b |]; [| discriminate].
    apply eqb_prop in Es. now subst b.
  - apply bind_ok_inv in H. destruct H as (s2 & [] & _ & H).
    destruct on; cbv [bind modify negb] in H; injection H as <-; reflexivity.
Qed.

(** X5: [set_power] is idempotent.  When the stored power already is the
    requested one the call returns at once, writing nothing; so after a
    call that returned, the same call again changes nothing and sends no
    second frame. *)
Theorem set_power_idempotent (on : bool) (s s1 : HelloFairyAPI) :
  set_power on s = (s1, Ok tt) ->
  state s1 = Some on
  /\ set_power on s1 = (s1, Ok tt)
  /\ written (fst (set_power on s1)) = written s1.
Proof.
  intros H. apply set_power_returns in H.
  assert (E : set_power on s1 = (s1, Ok tt)).
  { unfold set_power. unfold bind at 1. cbn [get].
    unfold state_is. rewrite H. now rewrite eqb_reflx. }
  split; [exact H | split; [exact E |]]. now rewrite E.
Qed.

Lemma set_power_idempotent_witness :
  written (fst (set_power true (fst (set_power true (init true [[Const.ACK2]])))))
  = [[0xAA; 0x02; 0x01; 0x01; 0xAE]].
Proof.
  refine (proj2 (proj2 (set_power_idempotent true (init true [[Const.ACK2]])
    (fst (set_power true (init true [[Const.ACK2]]))) _))).
  vm_compute. reflexivity.
Defined.

Lemma clamp_bounds (lo hi x : Z) : lo <= hi -> lo <= clamp lo hi x <= hi.
Proof. unfold clamp. lia. Qed.

(** X6: [set_color_hsv] stores clamped values whatever it is given: when
    it returns, the stored hue is within 0..359, saturation and value
    within 0..100, the brightness is the stored value, the mode is colour
    and the preset is cleared. *)
Theorem set_color_hsv_clamps (h sa v : Z) (st st' : HelloFairyAPI) :
  set_color_hsv h sa v st = (st', Ok tt) ->
  exists h' s' v',
    hsv st' = Some (h', s', v')
    /\ 0 <= h' <= 359 /\ 0 <= s' <= 100 /\ 0 <= v' <= 100
    /\ brightness st' = Some v'
    /\ mode st' = Some Const.MODE_COLOR
    /\ current_preset st' = None.
Proof.
  intros H. apply set_color_hsv_returns in H.
  destruct H as (Hh & Hb & Hm & Hp & _ & _).
  exists (clamp 0 359 h), (clamp 0 100 sa), (clamp 0 100 v).
  repeat split; try assumption; apply clamp_bounds; lia.
Qed.

Lemma set_color_hsv_clamps_witness :
  exists h' s' v',
    hsv (fst (set_color_hsv 400 (-5) 1000 (with_inbox [[Const.ACK3]] lit_color)))
    = Some (h', s', v')
    /\ 0 <= h' <= 359 /\ 0 <= s' <= 100 /\ 0 <= v' <= 100
    /\ brightness (fst (set_color_hsv 400 (-5) 1000
                          (with_inbox [[Const.ACK3]] lit_color))) = Some v'
    /\ mode (fst (set_color_hsv 400 (-5) 1000
                    (with_inbox [[Const.ACK3]] lit_color))) = Some Const.MODE_COLOR
    /\ current_preset (fst (set_color_hsv 400 (-5) 1000
                              (with_inbox [[Const.ACK3]] lit_color))) = None.
Proof.
  refine (set_color_hsv_clamps 400 (-5) 1000 (with_inbox [[Const.ACK3]] lit_color)
            (fst (set_color_hsv 400 (-5) 1000 (with_inbox [[Const.ACK3]] lit_color)))
            _).
  vm_compute. reflexivity.
Defined.




(** The invariant is lost in two more ways on the notification path: a
    colour status met in preset mode keeps the preset beside the colour,
    and a mode byte other than 1 and 2 is stored as the mode with nothing
    populated. *)
Lemma status_color_keeps_preset :
  invariant lit_preset = true
  /\ current_preset (fst (_handle_notification frame_color lit_preset)) = Some 17
  /\ hsv (fst (_handle_notification frame_color lit_preset)) = Some (45, 25, 50)
  /\ invariant (fst (_handle_notification frame_color lit_preset)) = false
  /\ mode (fst (_handle_notification
                  [0; 0; 0; 0; 0; 0; 1; 3; 0; 0; 0; 0]
                  (fst (set_power true (init true [[Const.ACK2]])))))
     = Some 3
  /\ invariant (fst (_handle_notification
                       [0; 0; 0; 0; 0; 0; 1; 3; 0; 0; 0; 0]
                       (fst (set_power true (init true [[Const.ACK2]])))))
     = false.
Proof. vm_compute. repeat split. Qed.

Lemma handle_other_mode (data : list Z) (s : HelloFairyAPI) :
  (12 <= length data)%nat ->
  nth 6 data 0 = 1 -> nth 7 data 0 <> 1 -> nth 7 data 0 <> 2 ->
  _handle_notification data s
  = (with_updates (S (updates s))
       (with_mode (Some (nth 7 data 0)) (with_state (Some true) s)),
     Ok tt).
Proof.
  intros Hlen H6 H71 H72. past_length_tests.
  rewrite (bind_ok _ _ s s (nth 6 data 0)) by (apply item_in; lia).
  rewrite H6. cbn [Z.eqb Pos.eqb negb].
  unfold bind at 1. cbn [modify].
  rewrite (bind_ok _ _ _ _ (nth 7 data 0)) by (apply item_in; lia).
  destruct (Z.eqb_spec (nth 7 data 0) 1); [contradiction |].
  destruct (Z.eqb_spec (nth 7 data 0) 2); [contradiction |].
  reflexivity.
Qed.

(** X9: the handler returns normally on every notification but one shape:
    it raises, and then IndexError, exactly on the frames of twelve or
    thirteen bytes with byte 6 = 1 and byte 7 = 1. *)
Theorem handler_raises_only_on_short_color (data : list Z) (s : HelloFairyAPI) :
  snd (_handle_notification data s) = Ok tt
  \/ ((12 <= length data < 14)%nat
      /\ nth 6 data 0 = 1
      /\ nth 7 data 0 = 1
      /\ snd (_handle_notification data s) = Raise IndexError).
Proof.
  destruct (Nat.eq_dec (length data) 4) as [E4 | N4].
  { left. now rewrite (handle_ack data s E4). }
  destruct (Nat.lt_ge_cases (length data) 12) as [L12 | G12].
  { left. unfold _handle_notification.
    destruct (Z.eqb_spec (Z.of_nat (length data)) 4); [lia |].
    destruct (Z.ltb_spec (Z.of_nat (length data)) 12); [reflexivity | lia]. }
  destruct (Z.eq_dec (nth 6 data 0) 1) as [E6 | N6].
  2: { left. now rewrite (handle_off data s G12 N6). }
  destruct (Z.eq_dec (nth 7 data 0) 1) as [E7 | N7].
  - destruct (Nat.lt_ge_cases (length data) 14) as [L14 | G14].
    + right. repeat split; try assumption.
      now rewrite (handle_color_short data s (conj G12 L14) E6 E7).
    + left. now rewrite (handle_color data s G14 E6 E7).
  - left. destruct (Z.eq_dec (nth 7 data 0) 2) as [E2 | N2].
    + now rewrite (handle_preset data s G12 E6 E2).
    + now rewrite (handle_other_mode data s G12 E6 N7 N2).
Qed.

(** ** An acknowledgement in time *)

Lemma heard_refl s : heard s s.
Proof. now split. Qed.

Lemma heard_trans s1 s2 s3 : heard s1 s2 -> heard s2 s3 -> heard s1 s3.
Proof.
  intros [I1 A1] [I2 A2]. split; [congruence | auto].
Qed.

Lemma handler_heard (data : list Z) : keeps heard (_handle_notification data).
Proof.
  pose proof heard_refl as Hr. pose proof heard_trans as Ht.
  unfold _handle_notification, _update_callback.
  destruct (Z.of_nat (length data) =? 4).
  { keeps_steps; now split. }
  destruct (Z.of_nat (length data) <? 12).
  { keeps_steps. }
  apply keeps_bind; [assumption | keeps_steps | intro b6].
  apply keeps_bind; [assumption | | intros _].
  { keeps_steps. now split. }
  destruct (negb (b6 =? 1)).
  { keeps_steps. now split. }
  apply keeps_bind; [assumption | keeps_steps | intro m].
  apply keeps_bind; [assumption | | intros _].
  { keeps_steps. now split. }
  apply keeps_bind; [assumption | | intros _].
  - destruct (m =? 1); [| destruct (m =? 2)];
      keeps_steps; now split.
  - keeps_steps. now split.
Qed.

Lemma deliver_heard (frames : list (list Z)) s : heard s (deliver frames s).
Proof.
  apply keeps_deliver.
  - apply heard_refl.
  - apply heard_trans.
  - intros data _. apply handler_heard.
Qed.

(** A group holding a frame of four bytes raises the flag. *)
Lemma deliver_hears (frames : list (list Z)) :
  forallb (fun data => negb (Z.of_nat (length data) =? 4)) frames = false ->
  forall s, _ack_received (deliver frames s) = true.
Proof.
  induction frames as [| data frames IH]; intros H s; [discriminate |].
  cbn [forallb] in H. change (deliver (data :: frames) s)
    with (deliver frames (fst (_handle_notification data s))).
  destruct (Z.eqb_spec (Z.of_nat (length data)) 4) as [E | E].
  - rewrite (handle_ack data s) by lia. cbn [fst].
    now apply deliver_heard.
  - cbn [negb andb] in H. now apply IH.
Qed.

Lemma wait_heard (fuel : nat) (timeout : float) :
  forall elapsed n s,
    polls fuel timeout elapsed = Some n ->
    _ack_received s = true \/ silent n (inbox s) = false ->
    _ack_received (fst (wait_for_ack fuel timeout elapsed s)) = true.
Proof.
  induction fuel as [| fuel IH]; intros elapsed n s Hp Hs;
    cbn [wait_for_ack polls] in *;
    destruct (_ack_received s) eqn:Ea; cbn [negb andb fst]; try assumption;
    (destruct Hs as [Hs | Hs]; [discriminate |]);
    destruct (PrimFloat.ltb elapsed timeout); try discriminate.
  - injection Hp as <-. discriminate.
  - destruct (polls fuel timeout (PrimFloat.add elapsed 0.1)) as [n' |] eqn:E;
      [| discriminate].
    injection Hp as <-. unfold bind, sleep.
    destruct (inbox s) as [| frames rest] eqn:Ei.
    + unfold silent in Hs. rewrite firstn_nil in Hs. discriminate.
    + unfold silent in Hs. cbn [firstn forallb] in Hs.
      apply IH with n'; [exact E |].
      apply andb_false_iff in Hs. destruct Hs as [Hs | Hs].
      * left. now apply deliver_hears.
      * right. destruct (deliver_heard frames (with_inbox rest s)) as [I _].
        rewrite I. exact Hs.
  - injection Hp as <-. discriminate.
Qed.

Lemma sleep_inbox s : inbox (fst (sleep s)) = skipn 1 (inbox s).
Proof.
  unfold sleep. destruct (inbox s) as [| frames rest] eqn:E; cbn [fst skipn].
  - exact E.
  - now destruct (deliver_heard frames (with_inbox rest s)) as [-> _].
Qed.

(** The wait takes the groups of notifications one per sleep, no more
    than the loop has turns; it ends with the flag down only after all of
    its turns. *)
Lemma wait_polls (fuel : nat) (timeout : float) :
  forall elapsed n s,
    polls fuel timeout elapsed = Some n ->
    exists k,
      (k <= n)%nat
      /\ inbox (fst (wait_for_ack fuel timeout elapsed s)) = skipn k (inbox s)
      /\ (_ack_received (fst (wait_for_ack fuel timeout elapsed s)) = false ->
          k = n).
Proof.
  induction fuel as [| fuel IH]; intros elapsed n s Hp;
    cbn [wait_for_ack polls] in *;
    destruct (_ack_received s) eqn:Ea; cbn [negb andb fst];
    try (exists 0%nat; repeat split; [lia | congruence]);
    destruct (PrimFloat.ltb elapsed timeout); try discriminate;
    try (injection Hp as <-; exists 0%nat; now repeat split).
  destruct (polls fuel timeout (PrimFloat.add elapsed 0.1)) as [n' |] eqn:Hn;
    [| discriminate].
  injection Hp as <-. unfold bind.
  rewrite (surjective_pairing (sleep s)), sleep_ok.
  destruct (IH _ n' (fst (sleep s)) Hn) as (k & Hk & Hi & Hf).
  exists (S k). split; [lia |]. split.
  - rewrite Hi, sleep_inbox, skipn_skipn. f_equal. lia.
  - intros H. now rewrite (Hf H).
Qed.

(** X4: the wait of [_send_command] is bounded and honest.  Whatever the
    command and the state, the call takes at most 51 sleeps of 0.1 s, each
    handing the notifications of that interval to the handler, and the
    loop ends by its own test.  It returns only with the acknowledgement
    flag raised; it raises TimeoutError only with the flag still down,
    after all 51 sleeps, and with the frame and its checksum written. *)
Theorem send_command_wait_bounded (command : list Z) (s : HelloFairyAPI) :
  snd (_send_command command s) <> Raise OutOfFuel
  /\ (exists k, (k <= 51)%nat
                /\ inbox (fst (_send_command command s)) = skipn k (inbox s))
  /\ (snd (_send_command command s) = Ok tt ->
      _ack_received (fst (_send_command command s)) = true)
  /\ (snd (_send_command command s) = Raise TimeoutError ->
      _ack_received (fst (_send_command command s)) = false
      /\ inbox (fst (_send_command command s)) = skipn 51 (inbox s)
      /\ written (fst (_send_command command s))
         = written s ++ [command ++ [_calculate_checksum command]]).
Proof.
  destruct (reachable s) eqn:Hr.
  - destruct (forallb Py.is_byte command) eqn:Hb.
    + pose proof (send_command_written command s Hr Hb) as W.
      rewrite (send_command_eq command s Hr Hb) in *. cbn [fst snd] in *.
      destruct (wait_polls wait_fuel 5 0 51%nat (armed command s) polls_5s)
        as (k & Hk & Hi & Hf).
      fold (waited command s) in Hi, Hf.
      change (inbox (armed command s)) with (inbox s) in Hi.
      destruct (_ack_received (waited command s)) eqn:Ea.
      * split; [discriminate |].
        split; [exists k; split; [exact Hk | exact Hi] |].
        split; [reflexivity | discriminate].
      * split; [discriminate |].
        split; [exists k; split; [exact Hk | exact Hi] |].
        split; [discriminate |]. intros _.
        rewrite Hi, (Hf eq_refl). now repeat split.
    + rewrite (send_command_not_bytes command s Hr Hb). cbn [fst snd].
      split; [discriminate |].
      split; [exists 0%nat; split; [lia | reflexivity] |].
      split; discriminate.
  - rewrite (send_command_unreachable command s Hr). cbn [fst snd].
    split; [discriminate |].
    split; [exists 0%nat; split; [lia | reflexivity] |].
    split; discriminate.
Qed.

(** X10: acknowledgement correlation.  When a notification of four bytes
    arrives during one of the 51 polls that follow the write, the send
    returns normally with the flag raised; together with the timeout case
    this makes the outcome of a carried send depend on that alone. *)
Theorem acknowledged_send_returns (command : list Z) (s : HelloFairyAPI) :
  reachable s = true ->
  forallb Py.is_byte command = true ->
  silent 51 (inbox s) = false ->
  snd (_send_command command s) = Ok tt
  /\ _ack_received (fst (_send_command command s)) = true.
Proof.
  intros Hr Hb Hs. rewrite (send_command_eq command s Hr Hb). cbn [fst snd].
  assert (A : _ack_received (waited command s) = true).
  { unfold waited.
    apply (wait_heard wait_fuel 5 0 51 (armed command s) polls_5s).
    right. exact Hs. }
  now rewrite A.
Qed.

Lemma acknowledged_send_returns_witness :
  snd (_send_command [0xAA; 0x02; 0x01; 0x00]
         (with_inbox [[]; [frame_color; Const.ACK2]] lit_color)) = Ok tt.
Proof.
  exact (proj1 (acknowledged_send_returns [0xAA; 0x02; 0x01; 0x00]
    (with_inbox [[]; [frame_color; Const.ACK2]] lit_color)
    eq_refl eq_refl eq_refl)).
Defined.

(** ** Turning off, and a link that is down *)

Lemma set_power_off_returns (s s' : HelloFairyAPI) :
  state_is false s = false ->
  set_power false s = (s', Ok tt) ->
  state s' = Some false /\ brightness s' = None /\ color s' = None
  /\ hsv s' = None /\ current_preset s' = None /\ mode s' = None.
Proof.
  unfold set_power. unfold bind at 1. cbn [get]. intros Hs H. rewrite Hs in H.
  apply bind_ok_inv in H. destruct H as (s2 & [] & _ & H).
  cbv [bind modify negb] in H. injection H as <-. cbn. repeat split.
Qed.

(** X11: when [async_turn_off] returns on a lamp not already stored as
    off, what the entity then shows is an off lamp with nothing else:
    [is_on] is false and [brightness], [rgb_color] and [effect] are
    [None].  ([set_power(False)] on a lamp stored as off sends nothing
    and clears nothing.) *)
Theorem turn_off_shows_nothing (s s' : HelloFairyAPI) :
  state_is false s = false ->
  Light.async_turn_off s = (s', Ok tt) ->
  Light.is_on (_async_update_data s') = Some false
  /\ Light.brightness (_async_update_data s') = None
  /\ Light.rgb_color (_async_update_data s') = None
  /\ Light.effect (_async_update_data s') = None
  /\ Number.native_value (Some (_async_update_data s')) = None.
Proof.
  intros Hs H. unfold Light.async_turn_off in H.
  destruct (set_power_off_returns s s' Hs H) as (A & B & C & D & E & F).
  unfold Light.is_on, Light.brightness, Light.rgb_color, Light.effect,
    Number.native_value, _async_update_data. cbn.
  rewrite A, B, C, E, F. repeat split.
Qed.

Lemma turn_off_shows_nothing_witness :
  Light.brightness
    (_async_update_data
       (fst (Light.async_turn_off (with_inbox [[Const.ACK2]] lit_color))))
  = None
  /\ Light.brightness (_async_update_data lit_color) = Some 127.
Proof.
  split.
  - refine (proj1 (proj2 (turn_off_shows_nothing
      (with_inbox [[Const.ACK2]] lit_color)
      (fst (Light.async_turn_off (with_inbox [[Const.ACK2]] lit_color))) _ _))).
    + reflexivity.
    + vm_compute. reflexivity.
  - reflexivity.
Defined.

Lemma set_power_unreachable (on : bool) (s : HelloFairyAPI) :
  reachable s = false ->
  state_is on s = false ->
  set_power on s = (s, Raise ConnectionError).
Proof.
  intros Hr Hs. unfold set_power. unfold bind at 1. cbn [get]. rewrite Hs.
  now rewrite (bind_raise _ _ _ _ _ (send_command_unreachable _ s Hr)).
Qed.

Lemma power_on_first_unreachable (st : HelloFairyAPI) :
  reachable st = false ->
  is_off st = true ->
  (set_power true ;; sleep) st = (st, Raise ConnectionError).
Proof.
  intros Hr Ho. apply bind_raise. apply set_power_unreachable; [exact Hr |].
  unfold is_off in Ho. unfold state_is.
  destruct (state st) as [[|] |]; now try discriminate.
Qed.

Lemma set_color_hsv_unreachable (h sa v : Z) (st : HelloFairyAPI) :
  reachable st = false ->
  set_color_hsv h sa v st = (st, Raise ConnectionError).
Proof.
  intros Hr. unfold set_color_hsv. unfold bind at 1. cbn [get].
  destruct (is_off st) eqn:Ho.
  - now rewrite (bind_raise _ _ _ _ _ (power_on_first_unreachable st Hr Ho)).
  - unfold bind at 1. cbn [ret].
    now rewrite (bind_raise _ _ _ _ _ (send_command_unreachable _ st Hr)).
Qed.

Lemma set_preset_unreachable (preset : Z) (st : HelloFairyAPI) :
  reachable st = false ->
  set_preset preset st = (st, Raise ConnectionError).
Proof.
  intros Hr. unfold set_preset. unfold bind at 1. cbn [get].
  destruct (is_off st) eqn:Ho.
  - now rewrite (bind_raise _ _ _ _ _ (power_on_first_unreachable st Hr Ho)).
  - unfold bind at 1. cbn [ret]. unfold bind at 1. cbn [get].
    now rewrite (bind_raise _ _ _ _ _ (send_command_unreachable _ st Hr)).
Qed.

(** X12: with no client connected and a link that cannot be established,
    every operation that has a frame to send raises ConnectionError and
    leaves the object exactly as it was: nothing is written, no attribute
    and not even the acknowledgement flag changes.  For [set_color_rgb]
    this is stated for channels within 0..255, where the conversion
    before the connection attempt cannot raise.  The two operations
    that have nothing to send, [set_power] to the stored power and
    [set_brightness] on a lamp that is off, return as usual. *)
Theorem link_down_changes_nothing (s : HelloFairyAPI) :
  reachable s = false ->
  (forall on, set_power on s
              = (s, if state_is on s then Ok tt else Raise ConnectionError))
  /\ (forall h sa v, set_color_hsv h sa v s = (s, Raise ConnectionError))
  /\ (forall r g b,
        0 <= r <= 255 -> 0 <= g <= 255 -> 0 <= b <= 255 ->
        set_color_rgb r g b s = (s, Raise ConnectionError))
  /\ (forall level, set_brightness level s
                    = (s, if is_off s then Ok tt else Raise ConnectionError))
  /\ (forall preset, set_preset preset s = (s, Raise ConnectionError))
  /\ (forall value n,
        Number.int value = Number.IntOk n -> 1 <= n <= 58 ->
        Number.async_set_native_value value s
        = (s, Number.Raised ConnectionError)).
Proof.
  intros Hr. split; [| split; [| split; [| split; [| split]]]].
  - intros on. destruct (state_is on s) eqn:Es.
    + unfold set_power. unfold bind at 1. cbn [get]. now rewrite Es.
    + now apply set_power_unreachable.
  - intros h sa v. now apply set_color_hsv_unreachable.
  - intros r g b _ _ _. unfold set_color_rgb. unfold bind at 1. cbn [get].
    destruct (hsv_of_rgb (brightness s) r g b) as [[h sa] v].
    now apply set_color_hsv_unreachable.
  - intros level. unfold set_brightness. unfold bind at 1. cbn [get].
    destruct (is_off s); [reflexivity |].
    destruct (hsv s) as [[[h sa] v] |]; now apply set_color_hsv_unreachable.
  - intros preset. now apply set_preset_unreachable.
  - intros value n Hv Hn. unfold Number.async_set_native_value. rewrite Hv.
    destruct (Z.ltb_spec n 1); [lia |]. destruct (Z.ltb_spec 58 n); [lia |].
    cbn [orb]. now rewrite (set_preset_unreachable n s Hr).
Qed.

Lemma link_down_changes_nothing_witness :
  set_power false (fst (disconnect (with_inbox [[Const.ACK2]] (init false [])))) 
  = (fst (disconnect (with_inbox [[Const.ACK2]] (init false []))),
     Raise ConnectionError).
Proof.
  exact (proj1 (link_down_changes_nothing
    (fst (disconnect (with_inbox [[Const.ACK2]] (init false [])))) eq_refl) false).
Defined.

(** X13: [disconnect] drops the client and nothing else: the device
    attributes, the flag and what was written stay.  The next command
    connects again on demand: with the link available its frame is
    written as from a connected client, and otherwise it raises
    ConnectionError with nothing written. *)
Theorem disconnect_then_send (command : list Z) (s : HelloFairyAPI) :
  forallb Py.is_byte command = true ->
  snd (disconnect s) = Ok tt
  /\ client_connected (fst (disconnect s)) = false
  /\ same_device s (fst (disconnect s))
  /\ written (fst (disconnect s)) = written s
  /\ (if link_ok s
      then written (fst (_send_command command (fst (disconnect s))))
           = written s ++ [command ++ [_calculate_checksum command]]
           /\ client_connected (fst (_send_command command (fst (disconnect s))))
              = true
      else _send_command command (fst (disconnect s))
           = (fst (disconnect s), Raise ConnectionError)).
Proof.
  intros Hb.
  assert (E : disconnect s = (with_client_connected false s, Ok tt)).
  { unfold disconnect, bind, get. destruct s as [c l w i u a st br co hs pr mo].
    destruct c; reflexivity. }
  rewrite E. cbn [fst snd].
  split; [reflexivity |]. split; [reflexivity |].
  split; [now repeat split |]. split; [reflexivity |].
  destruct (link_ok s) eqn:El.
  - assert (Hr : reachable (with_client_connected false s) = true)
      by (unfold reachable; cbn; exact El).
    split.
    + now rewrite (send_command_written command _ Hr Hb).
    + rewrite (send_command_eq command _ Hr Hb). cbn [fst].
      destruct (waited_link command (with_client_connected false s))
        as (C & _ & _).
      now rewrite C.
  - apply send_command_unreachable. unfold reachable. cbn. exact El.
Qed.

Lemma disconnect_then_send_witness :
  written (fst (_send_command [0xAA; 0x02; 0x01; 0x00] (fst (disconnect lit_color))))
  = written lit_color ++ [[0xAA; 0x02; 0x01; 0x00; 0xAD]].
Proof.
  exact (proj1 (proj2 (proj2 (proj2 (proj2
    (disconnect_then_send [0xAA; 0x02; 0x01; 0x00] lit_color eq_refl)))))).
Defined.

(** ** The brightness scalings of light.py *)

Lemma in_percents (p : Z) : 0 <= p <= 100 -> In p percents.
Proof.
  intros H. unfold percents. apply in_map_iff. exists (Z.to_nat p).
  split; [lia |]. apply in_seq. lia.
Qed.

Lemma in_levels (b : Z) : 0 <= b <= 255 -> In b levels.
Proof.
  intros H. unfold levels. apply in_map_iff. exists (Z.to_nat b).
  split; [lia |]. apply in_seq. lia.
Qed.

Lemma scale_up_checked : forallb scale_up_ok percents = true.
Proof. vm_compute. reflexivity. Qed.

Lemma scale_down_checked : forallb scale_down_ok levels = true.
Proof. vm_compute. reflexivity. Qed.

Lemma scale_up_value (p : Z) :
  0 <= p <= 100 -> Light.brightness_scale p 0 100 0 255 = Some (p * 255 / 100).
Proof.
  intros H. pose proof scale_up_checked as C. rewrite forallb_forall in C.
  specialize (C p (in_percents p H)). unfold scale_up_ok in C.
  destruct (Light.brightness_scale p 0 100 0 255) as [b |]; [| discriminate].
  apply Z.eqb_eq in C. now subst b.
Qed.

Lemma scale_down_value (b : Z) :
  0 <= b <= 255 -> Light.brightness_scale b 0 255 0 100 = Some (b * 100 / 255).
Proof.
  intros H. pose proof scale_down_checked as C. rewrite forallb_forall in C.
  specialize (C b (in_levels b H)). unfold scale_down_ok in C.
  destruct (Light.brightness_scale b 0 255 0 100) as [q |]; [| discriminate].
  apply Z.eqb_eq in C. now subst q.
Qed.

(** X14: on the ranges the entity uses, [brightness_scale] is integer
    arithmetic: a device brightness [p] in 0..100 is shown as
    [p * 255 // 100], within 0..255, and a framework brightness [b] in
    0..255 is sent as [b * 100 // 255], within 0..100; the float division
    never lands on the wrong side of an integer.  An empty source range is
    a division by zero. *)
Theorem brightness_scale_is_floor (x : Z) :
  0 <= x <= 255 ->
  Light.brightness_scale x 0 255 0 100 = Some (x * 100 / 255)
  /\ 0 <= x * 100 / 255 <= 100
  /\ (x <= 100 ->
      Light.brightness_scale x 0 100 0 255 = Some (x * 255 / 100)
      /\ 0 <= x * 255 / 100 <= 255)
  /\ (forall lo to_min to_max, Light.brightness_scale x lo lo to_min to_max = None).
Proof.
  intros H. split; [now apply scale_down_value |]. split; [| split].
  - split; [apply Z.div_pos; lia | apply Z.div_le_upper_bound; lia].
  - intros H1. split; [apply scale_up_value; lia |].
    split; [apply Z.div_pos; lia | apply Z.div_le_upper_bound; lia].
  - intros lo to_min to_max. unfold Light.brightness_scale.
    now rewrite Z.sub_diag.
Qed.

Lemma brightness_scale_is_floor_witness :
  Light.brightness_scale 128 0 255 0 100 = Some 50.
Proof.
  exact (proj1 (brightness_scale_is_floor 128 ltac:(lia))).
Defined.

Lemma set_again_checked : forallb set_again_ok percents = true.
Proof. vm_compute. reflexivity. Qed.

Lemma shown_checked : forallb shown_ok levels = true.
Proof. vm_compute. reflexivity. Qed.

(** X15: the two scalings are not inverse to each other.  A device
    brightness [p] in 0..100, shown by the entity and set again as shown,
    comes back as [p] only when [p] is a multiple of 20, and as [p - 1]
    otherwise.  A framework brightness [b] in 0..255, sent to the device
    and shown again, comes back between [b - 3] and [b]. *)
Theorem brightness_scalings_drift (x : Z) :
  0 <= x <= 255 ->
  (exists b', sent_and_shown x = Some b' /\ x - 3 <= b' <= x)
  /\ (x <= 100 ->
      shown_and_set_again x = Some (if x mod 20 =? 0 then x else x - 1)).
Proof.
  intros H. split.
  - pose proof shown_checked as C. rewrite forallb_forall in C.
    specialize (C x (in_levels x H)). unfold shown_ok in C.
    destruct (sent_and_shown x) as [b' |]; [| discriminate].
    apply andb_prop in C. destruct C as [C1 C2].
    apply Z.leb_le in C1. apply Z.leb_le in C2. exists b'. split; [reflexivity | lia].
  - intros H1. pose proof set_again_checked as C. rewrite forallb_forall in C.
    specialize (C x (in_percents x ltac:(lia))). unfold set_again_ok in C.
    destruct (shown_and_set_again x) as [q |]; [| discriminate].
    apply Z.eqb_eq in C. now subst q.
Qed.

Lemma brightness_scalings_drift_witness :
  shown_and_set_again 50 = Some 49.
Proof.
  exact (proj2 (brightness_scalings_drift 50 ltac:(lia)) ltac:(lia)).
Defined.

(** ** set_brightness, and the order of the frames *)

Lemma clamp_idem (lo hi x : Z) :
  lo <= hi -> clamp lo hi (clamp lo hi x) = clamp lo hi x.
Proof. unfold clamp. lia. Qed.

(** X16: [set_brightness] on a lamp that is off does nothing.  On a lamp
    that is on, when it returns, the stored colour is the previous hue and
    saturation (clamped to 0..359 and 0..100) with the new value, and when
    no colour was stored (as in preset mode) it is white, (0, 0, value):
    the mode becomes colour and the preset is cleared, so dimming a
    running effect replaces the effect. *)
Theorem set_brightness_stores (level : Z) (s s' : HelloFairyAPI) :
  set_brightness level s = (s', Ok tt) ->
  if is_off s then s' = s
  else
    hsv s' = Some (match hsv s with
                   | Some (h, sa, _) =>
                       (clamp 0 359 h, clamp 0 100 sa, clamp 0 100 level)
                   | None => (0, 0, clamp 0 100 level)
                   end)
    /\ brightness s' = Some (clamp 0 100 level)
    /\ mode s' = Some Const.MODE_COLOR
    /\ current_preset s' = None.
Proof.
  unfold set_brightness. unfold bind at 1. cbn [get]. intros H.
  destruct (is_off s); [now injection H as <- |].
  destruct (hsv s) as [[[h sa] v] |];
    apply set_color_hsv_returns in H;
    destruct H as (Hh & Hb & Hm & Hp & _ & _);
    rewrite clamp_idem in Hh, Hb by lia;
    repeat split; assumption.
Qed.

Lemma set_brightness_stores_witness :
  hsv (fst (set_brightness 30 (with_inbox [[Const.ACK3]] lit_preset)))
  = Some (0, 0, 30)
  /\ current_preset (fst (set_brightness 30 (with_inbox [[Const.ACK3]] lit_preset)))
     = None.
Proof.
  pose proof (set_brightness_stores 30 (with_inbox [[Const.ACK3]] lit_preset)
    (fst (set_brightness 30 (with_inbox [[Const.ACK3]] lit_preset)))
    ltac:(vm_compute; reflexivity)) as H.
  split.
  - exact (proj1 H).
  - exact (proj2 (proj2 (proj2 H))).
Defined.

Lemma set_power_returns_written (on : bool) (s s' : HelloFairyAPI) :
  set_power on s = (s', Ok tt) ->
  written s'
  = written s
    ++ (if state_is on s then []
        else [[Const.CMD_PREFIX; Const.CMD_POWER; 1; if on then 1 else 0;
               if on then 0xAE else 0xAD]]).
Proof.
  unfold set_power. unfold bind at 1. cbn [get]. intros H.
  destruct (state_is on s).
  - injection H as <-. now rewrite app_nil_r.
  - apply bind_ok_inv in H. destruct H as (s2 & [] & Hsend & H).
    apply send_command_returns in Hsend. destruct Hsend as [W _].
    destruct on; cbv [bind modify negb] in H; injection H as <-; cbn;
      rewrite W; reflexivity.
Qed.

Lemma power_on_first_written (st s1 : HelloFairyAPI) :
  (if is_off st then set_power true ;; sleep else ret tt) st = (s1, Ok tt) ->
  written s1
  = written st ++ (if is_off st then [[0xAA; 0x02; 0x01; 0x01; 0xAE]] else []).
Proof.
  intros H. destruct (is_off st) eqn:Ho.
  - apply bind_ok_inv in H. destruct H as (sa & [] & Hp & Hs).
    apply set_power_returns_written in Hp.
    assert (E : state_is true st = false).
    { unfold is_off in Ho. unfold state_is.
      destruct (state st) as [[|] |]; now try discriminate. }
    rewrite E in Hp. destruct (sleep_keeps_link sa) as (_ & _ & W).
    rewrite Hs in W. cbn [fst] in W. now rewrite W, Hp.
  - injection H as <-. now rewrite app_nil_r.
Qed.

(** X17: power on goes first.  When [set_color_hsv] returns, it has
    written exactly the colour frame if the lamp was on, and the power-on
    frame [AA 02 01 01 AE] followed by the colour frame if the lamp was off
    or unknown; nothing else. *)
Theorem color_frames_in_order (h sa v : Z) (s s' : HelloFairyAPI) :
  set_color_hsv h sa v s = (s', Ok tt) ->
  written s'
  = written s
    ++ (if is_off s then [[0xAA; 0x02; 0x01; 0x01; 0xAE]] else [])
    ++ [color_command (clamp 0 359 h) (clamp 0 100 sa) (clamp 0 100 v)
        ++ [_calculate_checksum
              (color_command (clamp 0 359 h) (clamp 0 100 sa) (clamp 0 100 v))]].
Proof.
  unfold set_color_hsv. unfold bind at 1. cbn [get]. intros H.
  apply bind_ok_inv in H. destruct H as (s1 & [] & Hpre & H).
  apply bind_ok_inv in H. destruct H as (s2 & [] & Hsend & H).
  apply send_command_returns in Hsend. destruct Hsend as [W _].
  apply power_on_first_written in Hpre.
  cbv [bind modify] in H. injection H as <-. cbn [written with_color
    with_current_preset with_mode with_brightness with_hsv].
  now rewrite W, Hpre, <- app_assoc.
Qed.

Lemma color_frames_in_order_witness :
  written (fst (set_color_hsv 45 25 50 (init true [[Const.ACK2]; []; [Const.ACK3]])))
  = [[0xAA; 0x02; 0x01; 0x01; 0xAE];
     [0xAA; 0x03; 0x07; 0x01; 0; 45; 0; 250; 1; 244; 209]].
Proof.
  refine (color_frames_in_order 45 25 50
    (init true [[Const.ACK2]; []; [Const.ACK3]])
    (fst (set_color_hsv 45 25 50 (init true [[Const.ACK2]; []; [Const.ACK3]]))) _).
  vm_compute. reflexivity.
Defined.

(** ** Effects by name, and the name read back *)

Lemma catalogue_entry (name : string) (p : Z) :
  In (name, p) Const.EFFECT_PRESETS ->
  lookup_effect name Const.EFFECT_PRESETS = Some p
  /\ 1 <= p <= 58
  /\ Light.effect_of_preset p Const.EFFECT_PRESETS = Some name.
Proof.
  unfold Const.EFFECT_PRESETS. cbn [In]. intros H.
  repeat (destruct H as [H | H];
          [injection H as <- <-; vm_compute; repeat split; discriminate |]).
  contradiction.
Qed.

Lemma lookup_effect_none (name : string) (table : list (string * Z)) :
  ~ In name (map fst table) -> lookup_effect name table = None.
Proof.
  induction table as [| [k v] rest IH]; intros H; [reflexivity |].
  cbn [lookup_effect]. destruct (String.eqb_spec k name) as [E | E].
  - exfalso. apply H. left. exact E.
  - apply IH. intros Hin. apply H. right. exact Hin.
Qed.

(** X7: [set_effect] goes by the catalogue.  For every entry (name, id) of
    EFFECT_PRESETS, [set_effect(name)] is [set_preset(id)], and the id lies
    within 1..58, so it is sent as it stands; for a name that is not a key,
    [set_effect] returns without sending or changing anything. *)
Theorem set_effect_by_catalogue (name : string) (s : HelloFairyAPI) :
  (forall p, In (name, p) Const.EFFECT_PRESETS ->
             set_effect name s = set_preset p s
             /\ clamp 1 58 p = p)
  /\ (~ In name get_available_effects -> set_effect name s = (s, Ok tt)).
Proof.
  split.
  - intros p H. destruct (catalogue_entry name p H) as (L & B & _).
    unfold set_effect. rewrite L. split; [reflexivity |]. unfold clamp. lia.
  - intros H. unfold set_effect.
    now rewrite (lookup_effect_none name Const.EFFECT_PRESETS H).
Qed.

Lemma set_preset_returns (preset : Z) (st st' : HelloFairyAPI) :
  set_preset preset st = (st', Ok tt) ->
  current_preset st' = Some (clamp 1 58 preset)
  /\ mode st' = Some Const.MODE_PRESET
  /\ color st' = None
  /\ hsv st' = None.
Proof.
  unfold set_preset. unfold bind at 1. cbn [get]. intros H.
  apply bind_ok_inv in H. destruct H as (s1 & [] & _ & H).
  unfold bind at 1 in H. cbn [get] in H.
  apply bind_ok_inv in H. destruct H as (s2 & [] & _ & H).
  cbv [bind modify] in H. injection H as <-. cbn. repeat split.
Qed.

(** X18: an effect set by name is the effect read back.  For every entry
    (name, id) of the catalogue, when [set_effect(name)] returns, the API
    object holds the preset id in preset mode with no colour; and on every
    coordinator snapshot that carries this mode and preset, as the one a
    later update takes, the light entity's [effect] reads that name and
    the number entity's [native_value] reads [float(id)]: no two names of
    the catalogue share an id. *)
Theorem effect_set_is_effect_shown (name : string) (p : Z) (s s' : HelloFairyAPI) :
  In (name, p) Const.EFFECT_PRESETS ->
  set_effect name s = (s', Ok tt) ->
  current_preset s' = Some p
  /\ mode s' = Some Const.MODE_PRESET
  /\ color s' = None
  /\ forall data,
       Coordinator.mode data = mode s' ->
       Coordinator.current_preset data = current_preset s' ->
       Light.effect data = Some name
       /\ Number.native_value (Some data) = Some (Py.float_of_Z p).
Proof.
  intros Hin H. destruct (catalogue_entry name p Hin) as (L & B & E).
  unfold set_effect in H. rewrite L in H.
  apply set_preset_returns in H. destruct H as (Hp & Hm & Hc & _).
  assert (C : clamp 1 58 p = p) by (unfold clamp; lia). rewrite C in Hp.
  split; [exact Hp |]. split; [exact Hm |]. split; [exact Hc |].
  intros data Dm Dp. unfold Light.effect, Number.native_value.
  rewrite Dm, Dp, Hp, Hm, E.
  destruct (Z.eqb_spec p 0); [lia |]. repeat split.
Qed.

Lemma effect_set_is_effect_shown_witness :
  current_preset
    (fst (set_effect "Snow Day" (with_inbox [[Const.ACK3]] lit_color)))
  = Some 54.
Proof.
  refine (proj1 (effect_set_is_effect_shown "Snow Day" 54
    (with_inbox [[Const.ACK3]] lit_color)
    (fst (set_effect "Snow Day" (with_inbox [[Const.ACK3]] lit_color))) _ _)).
  - cbn. intuition.
  - vm_compute. reflexivity.
Defined.

(** ** async_turn_on *)

Lemma set_effect_returns (name : string) (p : Z) (s s' : HelloFairyAPI) :
  In (name, p) Const.EFFECT_PRESETS ->
  set_effect name s = (s', Ok tt) ->
  current_preset s' = Some p /\ mode s' = Some 2 /\ color s' = None.
Proof.
  intros Hin H. destruct (catalogue_entry name p Hin) as (L & B & _).
  unfold set_effect in H. rewrite L in H.
  apply set_preset_returns in H. destruct H as (Hp & Hm & Hc & _).
  assert (C : clamp 1 58 p = p) by (unfold clamp; lia). rewrite C in Hp.
  now repeat split.
Qed.

Lemma turn_on_steps (kw : Light.kwargs) (s s' : HelloFairyAPI) :
  Light.async_turn_on kw s = (s', Ok tt) ->
  exists s1 s2 s3,
    set_power true s = (s1, Ok tt)
    /\ match Light.ATTR_BRIGHTNESS kw with
       | Some b =>
           match Light.brightness_scale b 0 255 0 100 with
           | Some level => set_brightness level s1 = (s2, Ok tt)
           | None => s2 = s1
           end
       | None => s2 = s1
       end
    /\ match Light.ATTR_RGB_COLOR kw with
       | Some (r, g, b) => set_color_rgb r g b s2 = (s3, Ok tt)
       | None => s3 = s2
       end
    /\ match Light.ATTR_EFFECT kw with
       | Some name => set_effect name s3 = (s', Ok tt)
       | None => s' = s3
       end.
Proof.
  unfold Light.async_turn_on. intros H.
  apply bind_ok_inv in H. destruct H as (s1 & [] & H1 & H).
  apply bind_ok_inv in H. destruct H as (s2 & [] & H2 & H).
  apply bind_ok_inv in H. destruct H as (s3 & [] & H3 & H).
  exists s1, s2, s3. split; [exact H1 |]. split; [| split].
  - destruct (Light.ATTR_BRIGHTNESS kw) as [b |].
    + destruct (Light.brightness_scale b 0 255 0 100); [exact H2 |].
      now injection H2 as <-.
    + now injection H2 as <-.
  - destruct (Light.ATTR_RGB_COLOR kw) as [[[r g] b] |]; [exact H3 |].
    now injection H3 as <-.
  - destruct (Light.ATTR_EFFECT kw) as [name |]; [exact H |].
    now injection H as <-.
Qed.

(** X19: in [async_turn_on] the effect is applied last and wins.  With an
    effect name of the catalogue among the arguments, when the call
    returns the entity shows that effect and no colour, whatever
    brightness and rgb colour were passed along with it. *)
Theorem turn_on_effect_wins (kw : Light.kwargs) (name : string) (p : Z)
    (s s' : HelloFairyAPI) :
  Light.ATTR_EFFECT kw = Some name ->
  In (name, p) Const.EFFECT_PRESETS ->
  Light.async_turn_on kw s = (s', Ok tt) ->
  Light.effect (_async_update_data s') = Some name
  /\ Light.rgb_color (_async_update_data s') = None.
Proof.
  intros Hk Hin H. apply turn_on_steps in H.
  destruct H as (s1 & s2 & s3 & _ & _ & _ & H). rewrite Hk in H.
  destruct (set_effect_returns name p s3 s' Hin H) as (Hp & Hm & Hc).
  destruct (catalogue_entry name p Hin) as (_ & B & E).
  unfold Light.effect, Light.rgb_color, _async_update_data.
  cbn [Coordinator.mode Coordinator.current_preset Coordinator.color].
  rewrite Hp, Hm, Hc, E.
  destruct (Z.eqb_spec p 0); [lia |]. repeat split.
Qed.

Lemma turn_on_effect_wins_witness :
  Light.effect
    (_async_update_data
       (fst (Light.async_turn_on
               (Light.mkKwargs (Some 128) (Some (255, 0, 0)) (Some "Xmas"%string))
               (init true [[Const.ACK2]; [Const.ACK3]; [Const.ACK3];
                           [Const.ACK3]]))))
  = Some "Xmas"%string.
Proof.
  refine (proj1 (turn_on_effect_wins
    (Light.mkKwargs (Some 128) (Some (255, 0, 0)) (Some "Xmas"%string))
    "Xmas" 18
    (init true [[Const.ACK2]; [Const.ACK3]; [Const.ACK3]; [Const.ACK3]])
    (fst (Light.async_turn_on
            (Light.mkKwargs (Some 128) (Some (255, 0, 0)) (Some "Xmas"%string))
            (init true [[Const.ACK2]; [Const.ACK3]; [Const.ACK3]; [Const.ACK3]])))
    eq_refl _ _)).
  - cbn. intuition.
  - vm_compute. reflexivity.
Defined.



Lemma set_brightness_returns_on (level : Z) (s s' : HelloFairyAPI) :
  is_off s = false ->
  set_brightness level s = (s', Ok tt) ->
  brightness s' = Some (clamp 0 100 level).
Proof.
  unfold set_brightness. unfold bind at 1. cbn [get]. intros Ho H.
  rewrite Ho in H.
  destruct (hsv s) as [[[h sa] v] |];
    apply set_color_hsv_returns in H;
    destruct H as (_ & Hb & _); now rewrite clamp_idem in Hb by lia.
Qed.

(** X21: a brightness passed to [async_turn_on] alone, [b] in 0..255, is
    stored as [b * 100 // 255] percent when the call returns, and the
    entity then shows a brightness between [b - 3] and [b]. *)
Theorem turn_on_brightness_shown (b : Z) (s s' : HelloFairyAPI) :
  0 <= b <= 255 ->
  Light.async_turn_on (Light.mkKwargs (Some b) None None) s = (s', Ok tt) ->
  brightness s' = Some (b * 100 / 255)
  /\ exists shown,
       Light.brightness (_async_update_data s') = Some shown
       /\ b - 3 <= shown <= b.
Proof.
  intros Hb H. apply turn_on_steps in H.
  destruct H as (s1 & s2 & s3 & H1 & H2 & H3 & H4).
  cbn [Light.ATTR_BRIGHTNESS Light.ATTR_RGB_COLOR Light.ATTR_EFFECT] in *.
  subst s' s3. rewrite (scale_down_value b Hb) in H2.
  apply set_power_returns in H1.
  assert (Ho : is_off s1 = false) by (unfold is_off; now rewrite H1).
  apply (set_brightness_returns_on _ s1 s2 Ho) in H2.
  assert (R : 0 <= b * 100 / 255 <= 100).
  { split; [apply Z.div_pos; lia | apply Z.div_le_upper_bound; lia]. }
  assert (C : clamp 0 100 (b * 100 / 255) = b * 100 / 255)
    by (unfold clamp; lia).
  rewrite C in H2. split; [exact H2 |].
  pose proof shown_checked as K. rewrite forallb_forall in K.
  specialize (K b (in_levels b Hb)). unfold shown_ok, sent_and_shown in K.
  rewrite (scale_down_value b Hb) in K.
  unfold Light.brightness, _async_update_data. cbn [Coordinator.brightness].
  rewrite H2.
  destruct (Light.brightness_scale (b * 100 / 255) 0 100 0 255) as [shown |];
    [| discriminate].
  apply andb_prop in K. destruct K as [K1 K2].
  apply Z.leb_le in K1. apply Z.leb_le in K2.
  exists shown. split; [reflexivity | lia].
Qed.

Lemma turn_on_brightness_shown_witness :
  brightness
    (fst (Light.async_turn_on (Light.mkKwargs (Some 200) None None)
            (with_inbox [[Const.ACK3]] lit_color)))
  = Some 78.
Proof.
  refine (proj1 (turn_on_brightness_shown 200
    (with_inbox [[Const.ACK3]] lit_color)
    (fst (Light.async_turn_on (Light.mkKwargs (Some 200) None None)
            (with_inbox [[Const.ACK3]] lit_color))) _ _)).
  - lia.
  - vm_compute. reflexivity.
Defined.

(** ** The number entity *)

(** X22: the preset set through the number entity is the preset stored.
    When [async_set_native_value(value)] returns for a finite [value], then
    with [int(value)] outside 1..58 nothing was sent and nothing changed,
    and with [int(value)] inside the API object holds exactly
    [int(value)] as preset, in preset mode; on every coordinator snapshot
    that carries this preset, as the one a later update takes,
    [native_value] reads [float(int(value))]. *)
Theorem number_set_is_number_shown (value : float) (n : Z)
    (s s' : HelloFairyAPI) :
  Number.int value = Number.IntOk n ->
  Number.async_set_native_value value s = (s', Number.Returned) ->
  if (1 <=? n) && (n <=? 58)
  then current_preset s' = Some n
       /\ mode s' = Some Const.MODE_PRESET
       /\ forall data,
            Coordinator.current_preset data = current_preset s' ->
            Number.native_value (Some data) = Some (Py.float_of_Z n)
  else s' = s.
Proof.
  intros Hv H. unfold Number.async_set_native_value in H. rewrite Hv in H.
  destruct (Z.leb_spec 1 n) as [L1 | L1]; cbn [andb].
  2: { destruct (Z.ltb_spec n 1); [| lia]. cbn [orb] in H. now injection H as <-. }
  destruct (Z.leb_spec n 58) as [L2 | L2].
  2: { destruct (Z.ltb_spec 58 n); [| lia]. rewrite orb_true_r in H.
       now injection H as <-. }
  destruct (Z.ltb_spec n 1); [lia |]. destruct (Z.ltb_spec 58 n); [lia |].
  cbn [orb] in H.
  destruct (set_preset n s) as [s2 [[] | e]] eqn:E; [| discriminate].
  injection H as <-. apply set_preset_returns in E.
  destruct E as (Hp & Hm & _).
  assert (C : clamp 1 58 n = n) by (unfold clamp; lia). rewrite C in Hp.
  split; [exact Hp |]. split; [exact Hm |].
  intros data Dp. unfold Number.native_value. rewrite Dp, Hp.
  destruct (Z.eqb_spec n 0); [lia | reflexivity].
Qed.

Lemma number_set_is_number_shown_witness :
  current_preset
    (fst (Number.async_set_native_value 17.9
            (with_inbox [[Const.ACK3]] lit_color)))
  = Some 17.
Proof.
  refine (proj1 (number_set_is_number_shown 17.9 17
    (with_inbox [[Const.ACK3]] lit_color)
    (fst (Number.async_set_native_value 17.9
            (with_inbox [[Const.ACK3]] lit_color))) _ _)).
  - vm_compute. reflexivity.
  - vm_compute. reflexivity.
Defined.

(** ** Frames are always bytes *)

Lemma two_bytes (x : Z) :
  0 <= x < 65536 ->
  Py.is_byte (Z.shiftr x 8) = true /\ Py.is_byte (Z.land x 0xFF) = true.
Proof.
  intros H. rewrite Z.shiftr_div_pow2 by lia.
  change 0xFF with (Z.ones 8). rewrite Z.land_ones by lia.
  change (2 ^ 8) with 256.
  pose proof (Z.mod_pos_bound x 256 ltac:(lia)).
  assert (0 <= x / 256 < 256).
  { split; [apply Z.div_pos; lia | apply Z.div_lt_upper_bound; lia]. }
  unfold Py.is_byte. split; apply andb_true_intro;
    split; (apply Z.leb_le || apply Z.ltb_lt); lia.
Qed.

Lemma color_command_bytes (h sa v : Z) :
  forallb Py.is_byte
    (color_command (clamp 0 359 h) (clamp 0 100 sa) (clamp 0 100 v)) = true.
Proof.
  pose proof (clamp_bounds 0 359 h ltac:(lia)) as Hh.
  pose proof (clamp_bounds 0 100 sa ltac:(lia)) as Hs.
  pose proof (clamp_bounds 0 100 v ltac:(lia)) as Hv.
  destruct (two_bytes (clamp 0 359 h) ltac:(lia)) as [A1 A2].
  destruct (two_bytes (clamp 0 100 sa * 10) ltac:(lia)) as [B1 B2].
  destruct (two_bytes (clamp 0 100 v * 10) ltac:(lia)) as [C1 C2].
  unfold color_command. cbn [forallb].
  rewrite A1, A2, B1, B2, C1, C2. reflexivity.
Qed.

Lemma returned_no_argument_error : no_argument_error (Ok tt).
Proof. split; discriminate. Qed.

Lemma send_bytes_outcome (command : list Z) (s : HelloFairyAPI) :
  forallb Py.is_byte command = true ->
  no_argument_error (snd (_send_command command s)).
Proof.
  intros Hb. destruct (reachable s) eqn:Hr.
  - rewrite (send_command_eq command s Hr Hb). cbn [snd].
    destruct (_ack_received (waited command s)); split; discriminate.
  - rewrite (send_command_unreachable command s Hr). split; discriminate.
Qed.

Lemma set_power_outcome (on : bool) (s : HelloFairyAPI) :
  no_argument_error (snd (set_power on s)).
Proof.
  unfold set_power. unfold bind at 1. cbn [get].
  destruct (state_is on s); [apply returned_no_argument_error |].
  unfold bind at 1.
  pose proof (send_bytes_outcome
    [Const.CMD_PREFIX; Const.CMD_POWER; 1; if on then 1 else 0] s
    ltac:(destruct on; reflexivity)) as O.
  destruct (_send_command _ s) as [s1 [[] | e]]; cbn [snd] in O.
  - destruct on; apply returned_no_argument_error.
  - exact O.
Qed.

Lemma power_on_first_outcome (st : HelloFairyAPI) :
  no_argument_error
    (snd ((if is_off st then set_power true ;; sleep else ret tt) st)).
Proof.
  destruct (is_off st); [| apply returned_no_argument_error].
  unfold bind. pose proof (set_power_outcome true st) as O.
  destruct (set_power true st) as [s1 [[] | e]]; cbn [snd] in O.
  - rewrite (surjective_pairing (sleep s1)), sleep_ok.
    apply returned_no_argument_error.
  - exact O.
Qed.

Lemma set_color_hsv_outcome (h sa v : Z) (st : HelloFairyAPI) :
  no_argument_error (snd (set_color_hsv h sa v st)).
Proof.
  unfold set_color_hsv. unfold bind at 1. cbn [get]. unfold bind at 1.
  pose proof (power_on_first_outcome st) as O.
  destruct ((if is_off st then set_power true ;; sleep else ret tt) st)
    as [s1 [[] | e]]; cbn [snd] in O; [| exact O].
  unfold bind at 1.
  pose proof (send_bytes_outcome _ s1 (color_command_bytes h sa v)) as O2.
  destruct (_send_command _ s1) as [s2 [[] | e]]; cbn [snd] in O2;
    [apply returned_no_argument_error | exact O2].
Qed.

(** X23: the colour and power operations never fail on their own
    arguments.  Whatever integers [set_power], [set_color_hsv] and
    [set_brightness] are given, and whatever channels within 0..255
    [set_color_rgb] is given, none of them raises ValueError or
    IndexError: clamping keeps every frame within bytes, so
    [bytes(command)] accepts it, and an exception inside the notification
    handler never reaches the caller. *)
Theorem color_operations_never_value_error (s : HelloFairyAPI) :
  (forall on, no_argument_error (snd (set_power on s)))
  /\ (forall h sa v, no_argument_error (snd (set_color_hsv h sa v s)))
  /\ (forall r g b,
        0 <= r <= 255 -> 0 <= g <= 255 -> 0 <= b <= 255 ->
        no_argument_error (snd (set_color_rgb r g b s)))
  /\ (forall level, no_argument_error (snd (set_brightness level s))).
Proof.
  split; [| split; [| split]].
  - intros on. apply set_power_outcome.
  - intros h sa v. apply set_color_hsv_outcome.
  - intros r g b _ _ _. unfold set_color_rgb. unfold bind at 1. cbn [get].
    destruct (hsv_of_rgb (brightness s) r g b) as [[h sa] v].
    apply set_color_hsv_outcome.
  - intros level. unfold set_brightness. unfold bind at 1. cbn [get].
    destruct (is_off s); [apply returned_no_argument_error |].
    destruct (hsv s) as [[[h sa] v] |]; apply set_color_hsv_outcome.
Qed.

Lemma color_operations_never_value_error_witness :
  snd (set_color_rgb 255 128 0 (with_inbox [[Const.ACK3]] lit_preset))
  <> Raise ValueError.
Proof.
  refine (proj1 (proj1 (proj2 (proj2 (color_operations_never_value_error
    (with_inbox [[Const.ACK3]] lit_preset)))) 255 128 0 _ _ _)); lia.
Defined.

Lemma be16_fits (data : list Z) (i j : nat) :
  forallb Py.is_byte data = true ->
  (i < length data)%nat -> (j < length data)%nat ->
  0 <= be16 (nth i data 0) (nth j data 0) / 10 <= 6553.
Proof.
  intros Hb Hi Hj. pose proof (byte_at data i Hb Hi).
  pose proof (byte_at data j Hb Hj). rewrite be16_value by lia.
  split; [apply Z.div_pos; lia |].
  assert ((256 * nth i data 0 + nth j data 0) / 10 < 6554)
    by (apply Z.div_lt_upper_bound; lia).
  lia.
Qed.

Lemma fits_intro (s : HelloFairyAPI) (b : Z) :
  brightness s = Some b -> 0 <= b <= 6553 -> brightness_fits s = true.
Proof.
  intros E H. unfold brightness_fits. rewrite E.
  apply andb_true_intro. split; apply Z.leb_le; lia.
Qed.

Lemma handler_keeps_fits (data : list Z) (s : HelloFairyAPI) :
  forallb Py.is_byte data = true ->
  brightness_fits s = true ->
  brightness_fits (fst (_handle_notification data s)) = true.
Proof.
  intros Hb Hf.
  destruct (Nat.eq_dec (length data) 4) as [E4 | N4].
  { now rewrite (handle_ack data s E4). }
  destruct (Nat.lt_ge_cases (length data) 12) as [L12 | G12].
  { unfold _handle_notification.
    destruct (Z.eqb_spec (Z.of_nat (length data)) 4); [lia |].
    destruct (Z.ltb_spec (Z.of_nat (length data)) 12); [exact Hf | lia]. }
  destruct (Z.eq_dec (nth 6 data 0) 1) as [E6 | N6].
  2: { now rewrite (handle_off data s G12 N6). }
  destruct (Z.eq_dec (nth 7 data 0) 1) as [E7 | N7].
  - destruct (Nat.lt_ge_cases (length data) 14) as [L14 | G14].
    + now rewrite (handle_color_short data s (conj G12 L14) E6 E7).
    + rewrite (handle_color data s G14 E6 E7). cbn [fst].
      eapply fits_intro; [reflexivity |]. apply be16_fits; [assumption | lia | lia].
  - destruct (Z.eq_dec (nth 7 data 0) 2) as [E2 | N2].
    + rewrite (handle_preset data s G12 E6 E2). cbn [fst].
      eapply fits_intro; [reflexivity |]. apply be16_fits; [assumption | lia | lia].
    + now rewrite (handle_other_mode data s G12 E6 N7 N2).
Qed.

Lemma preset_command_bytes (preset bright : Z) :
  0 <= bright <= 6553 ->
  forallb Py.is_byte
    [Const.CMD_PREFIX; Const.CMD_COLOR_PRESET; 0x04; Const.MODE_PRESET;
     clamp 1 58 preset; Z.shiftr (bright * 10) 8; Z.land (bright * 10) 0xFF]
  = true.
Proof.
  intros H. pose proof (clamp_bounds 1 58 preset ltac:(lia)) as Hp.
  destruct (two_bytes (bright * 10) ltac:(lia)) as [A1 A2].
  cbn [forallb]. rewrite A1, A2.
  assert (P : Py.is_byte (clamp 1 58 preset) = true).
  { unfold Py.is_byte. apply andb_true_intro.
    split; [apply Z.leb_le | apply Z.ltb_lt]; lia. }
  rewrite P. reflexivity.
Qed.

(** X24: the stored brightness always fits the two bytes [set_preset]
    gives it.  A brightness within 0..6553 (or none) stays so under every
    notification made of bytes, the largest a status frame can report
    being 65535 // 10; and with such a brightness [set_preset] on a lamp
    that is on never fails on its frame: whatever the preset number,
    [bytes(command)] accepts the frame and the call raises neither
    ValueError nor IndexError. *)
Theorem preset_frame_always_fits (preset : Z) (s : HelloFairyAPI) :
  brightness_fits s = true ->
  (forall data, forallb Py.is_byte data = true ->
                brightness_fits (fst (_handle_notification data s)) = true)
  /\ (is_off s = false -> no_argument_error (snd (set_preset preset s))).
Proof.
  intros Hf. split.
  - intros data Hb. now apply handler_keeps_fits.
  - intros Ho. unfold set_preset. unfold bind at 1. cbn [get]. rewrite Ho.
    unfold bind at 1. cbn [ret]. unfold bind at 1. cbn [get].
    assert (B : 0 <= Py.or_default (brightness s) 50 <= 6553).
    { unfold brightness_fits in Hf.
      destruct (brightness s) as [[| b | b] |]; cbn [Py.or_default]; try lia;
        apply andb_prop in Hf; destruct Hf as [Hf1 Hf2];
        apply Z.leb_le in Hf1; apply Z.leb_le in Hf2; lia. }
    unfold bind at 1.
    pose proof (send_bytes_outcome _ s (preset_command_bytes preset _ B)) as O.
    destruct (_send_command _ s) as [s2 [[] | e]]; cbn [snd] in O;
      [apply returned_no_argument_error | exact O].
Qed.

Lemma preset_frame_always_fits_witness :
  brightness_fits
    (fst (_handle_notification
            [0; 0; 0; 0; 0; 0; 1; 2; 17; 255; 255; 0] lit_color)) = true
  /\ brightness
       (fst (_handle_notification
               [0; 0; 0; 0; 0; 0; 1; 2; 17; 255; 255; 0] lit_color))
     = Some 6553.
Proof.
  split.
  - exact (proj1 (preset_frame_always_fits 17 lit_color eq_refl)
             [0; 0; 0; 0; 0; 0; 1; 2; 17; 255; 255; 0] eq_refl).
  - reflexivity.
Defined.

(** ** The stored brightness and saturation, for every colour *)

Lemma scaled_orders_checked : forallb scaled_orders_ok levels = true.
Proof. vm_compute. reflexivity. Qed.

Lemma values_checked : forallb value_ok levels = true.
Proof. vm_compute. reflexivity. Qed.

Lemma saturations_checked : forallb saturations_ok levels = true.
Proof. vm_compute. reflexivity. Qed.

Lemma scaled_order (x y : Z) :
  0 <= x <= 255 -> 0 <= y <= 255 ->
  PrimFloat.ltb (scaled x) (scaled y) = (x <? y)
  /\ PrimFloat.eqb (scaled x) (scaled y) = (x =? y).
Proof.
  intros Hx Hy. pose proof scaled_orders_checked as C.
  rewrite forallb_forall in C. specialize (C x (in_levels x Hx)).
  unfold scaled_orders_ok in C. rewrite forallb_forall in C.
  specialize (C y (in_levels y Hy)). unfold scaled_order_ok in C.
  apply andb_prop in C. destruct C as [C1 C2].
  apply eqb_prop in C1. apply eqb_prop in C2. now split.
Qed.

Lemma scaled_lt (x y : Z) :
  0 <= x <= 255 -> 0 <= y <= 255 ->
  PrimFloat.ltb (scaled x) (scaled y) = (x <? y).
Proof. intros Hx Hy. apply (scaled_order x y Hx Hy). Qed.

Lemma max3_scaled (r g b : Z) :
  0 <= r <= 255 -> 0 <= g <= 255 -> 0 <= b <= 255 ->
  Py.max3 (scaled r) (scaled g) (scaled b) = scaled (Z.max r (Z.max g b)).
Proof.
  intros Hr Hg Hb. unfold Py.max3. rewrite (scaled_lt r g Hr Hg).
  destruct (Z.ltb_spec r g).
  - rewrite (scaled_lt g b Hg Hb). destruct (Z.ltb_spec g b); f_equal; lia.
  - rewrite (scaled_lt r b Hr Hb). destruct (Z.ltb_spec r b); f_equal; lia.
Qed.

Lemma min3_scaled (r g b : Z) :
  0 <= r <= 255 -> 0 <= g <= 255 -> 0 <= b <= 255 ->
  Py.min3 (scaled r) (scaled g) (scaled b) = scaled (Z.min r (Z.min g b)).
Proof.
  intros Hr Hg Hb. unfold Py.min3. rewrite (scaled_lt g r Hg Hr).
  destruct (Z.ltb_spec g r).
  - rewrite (scaled_lt b g Hb Hg). destruct (Z.ltb_spec b g); f_equal; lia.
  - rewrite (scaled_lt b r Hb Hr). destruct (Z.ltb_spec b r); f_equal; lia.
Qed.

(** The saturation and the value [colorsys.rgb_to_hsv] gives. *)
Lemma rgb_to_hsv_sv (r g b h s v : float) :
  colorsys.rgb_to_hsv r g b = (h, s, v) ->
  v = Py.max3 r g b
  /\ s = if PrimFloat.eqb (Py.min3 r g b) (Py.max3 r g b) then 0%float
         else PrimFloat.div (PrimFloat.sub (Py.max3 r g b) (Py.min3 r g b))
                            (Py.max3 r g b).
Proof.
  unfold colorsys.rgb_to_hsv.
  destruct (PrimFloat.eqb (Py.min3 r g b) (Py.max3 r g b));
    intros H; injection H as _ <- <-; now split.
Qed.

Lemma hsv_of_rgb_sv (prior : option Z) (r g b : Z) :
  0 <= r <= 255 -> 0 <= g <= 255 -> 0 <= b <= 255 ->
  0 < Z.max r (Z.max g b) ->
  exists h sa,
    hsv_of_rgb prior r g b = (h, sa, 100 * Z.max r (Z.max g b) / 255)
    /\ 0 <= sa
    /\ 100 * (Z.max r (Z.max g b) - Z.min r (Z.min g b)) / Z.max r (Z.max g b) - 1
       <= sa
       <= 100 * (Z.max r (Z.max g b) - Z.min r (Z.min g b)) / Z.max r (Z.max g b).
Proof.
  intros Hr Hg Hb Hpos.
  set (hi := Z.max r (Z.max g b)) in *. set (lo := Z.min r (Z.min g b)).
  assert (Hhi : 0 <= hi <= 255) by (subst hi; lia).
  assert (Hlo : 0 <= lo <= 255) by (subst lo; lia).
  assert (Hle : lo <= hi) by (subst lo hi; lia).
  unfold hsv_of_rgb. fold (scaled r) (scaled g) (scaled b).
  destruct (colorsys.rgb_to_hsv (scaled r) (scaled g) (scaled b))
    as [[h s] v] eqn:E.
  apply rgb_to_hsv_sv in E. destruct E as [Ev Es].
  rewrite (max3_scaled r g b Hr Hg Hb) in Ev, Es. fold hi in Ev, Es.
  rewrite (min3_scaled r g b Hr Hg Hb) in Es. fold lo in Es.
  pose proof values_checked as V. rewrite forallb_forall in V.
  specialize (V hi (in_levels hi Hhi)). unfold value_ok in V.
  apply andb_prop in V. destruct V as [V1 V2].
  apply Z.eqb_eq in V1. apply eqb_prop in V2.
  destruct (Z.ltb_spec 0 hi); [| lia].
  subst v. rewrite V2, V1.
  exists (Py.int_of_float (PrimFloat.mul h 360)),
         (Py.int_of_float (PrimFloat.mul s 100)).
  split; [reflexivity |].
  rewrite (proj2 (scaled_order lo hi Hlo Hhi)) in Es.
  destruct (Z.eqb_spec lo hi) as [Eq | Ne].
  - subst s. rewrite Eq, Z.sub_diag, Z.mul_0_r, Z.div_0_l by lia.
    change (Py.int_of_float (PrimFloat.mul 0 100)) with 0. lia.
  - subst s. fold (saturation_of hi lo).
    pose proof saturations_checked as S. rewrite forallb_forall in S.
    specialize (S hi (in_levels hi Hhi)). unfold saturations_ok in S.
    rewrite forallb_forall in S. specialize (S lo (in_levels lo Hlo)).
    destruct (Z.leb_spec hi lo); [lia |]. cbn [orb] in S.
    unfold saturation_ok in S.
    apply andb_prop in S. destruct S as [S S3].
    apply andb_prop in S. destruct S as [S1 S2].
    apply Z.leb_le in S1. apply Z.leb_le in S2. apply Z.leb_le in S3. lia.
Qed.

(** X27: the brightness and the saturation stored for a colour.  For
    every colour with channels within 0..255 that is not black, when
    [set_color_rgb] returns the stored brightness is the largest channel
    as a whole percentage of 255, rounded down, and it is the value of the
    stored hsv; the stored saturation is the whole percentage of
    [(max - min) / max], rounded down, or one below it, the float quotient
    falling short of an exact percentage. *)
Theorem set_color_rgb_brightness (r g b : Z) (s s' : HelloFairyAPI) :
  0 <= r <= 255 -> 0 <= g <= 255 -> 0 <= b <= 255 ->
  0 < Z.max r (Z.max g b) ->
  set_color_rgb r g b s = (s', Ok tt) ->
  brightness s' = Some (100 * Z.max r (Z.max g b) / 255)
  /\ exists h sa,
       hsv s' = Some (h, sa, 100 * Z.max r (Z.max g b) / 255)
       /\ 0 <= h <= 359
       /\ 0 <= sa <= 100
       /\ 100 * (Z.max r (Z.max g b) - Z.min r (Z.min g b))
            / Z.max r (Z.max g b) - 1
          <= sa
          <= 100 * (Z.max r (Z.max g b) - Z.min r (Z.min g b))
               / Z.max r (Z.max g b).
Proof.
  intros Hr Hg Hb Hpos H.
  destruct (hsv_of_rgb_sv (brightness s) r g b Hr Hg Hb Hpos)
    as (h & sa & E & S0 & S1).
  apply (set_color_rgb_returns _ _ _ _ _ _ _ _ E) in H.
  apply set_color_hsv_returns in H. destruct H as (Hh & Hbr & _).
  set (hi := Z.max r (Z.max g b)) in *. set (lo := Z.min r (Z.min g b)) in *.
  assert (Hhi : 0 < hi <= 255) by (subst hi; lia).
  assert (Hv : 0 <= 100 * hi / 255 <= 100).
  { split; [apply Z.div_pos; lia | apply Z.div_le_upper_bound; lia]. }
  assert (Hs : 100 * (hi - lo) / hi <= 100).
  { apply Z.div_le_upper_bound; subst lo; lia. }
  assert (Cv : clamp 0 100 (100 * hi / 255) = 100 * hi / 255)
    by (unfold clamp; lia).
  assert (Cs : clamp 0 100 sa = sa) by (unfold clamp; lia).
  rewrite Cv in Hh, Hbr. rewrite Cs in Hh.
  split; [exact Hbr |]. exists (clamp 0 359 h), sa.
  split; [exact Hh |]. split; [apply clamp_bounds; lia |].
  split; [lia | exact S1].
Qed.

Lemma set_color_rgb_brightness_witness :
  brightness
    (fst (set_color_rgb 200 100 50 (with_inbox [[Const.ACK3]] lit_preset)))
  = Some 78.
Proof.
  refine (proj1 (set_color_rgb_brightness 200 100 50
    (with_inbox [[Const.ACK3]] lit_preset)
    (fst (set_color_rgb 200 100 50 (with_inbox [[Const.ACK3]] lit_preset)))
    _ _ _ _ _)); try lia.
  vm_compute. reflexivity.
Defined.

(** ** The round trip on the three-digit hexadecimal colours *)

Lemma in_hex_levels (x : Z) : 0 <= x <= 255 -> x mod 17 = 0 -> In x hex_levels.
Proof.
  intros Hx Hm. unfold hex_levels. apply in_map_iff. exists (Z.to_nat (x / 17)).
  pose proof (Z.div_mod x 17 ltac:(lia)) as D.
  assert (0 <= x / 17 <= 15).
  { split; [apply Z.div_pos; lia | ]. 
    assert (x / 17 < 16) by (apply Z.div_lt_upper_bound; lia). lia. }
  split; [lia |]. apply in_seq. lia.
Qed.

Lemma hex_round_trips_checked : forallb hex_round_trip_ok hex_levels = true.
Proof. vm_compute. reflexivity. Qed.

Lemma seven_off_checked : read_back None 0 237 225 = (0, 234, 218).
Proof. vm_compute. reflexivity. Qed.

(** X28: the round trip on representative colours.  For every colour
    whose channels are multiples of 17 within 0..255 (the 4095 three-digit
    hexadecimal colours other than black), when [set_color_rgb] returns,
    the stored rgb is within 5 of the input on each channel.  The bound is
    one of these colours only: [(0, 237, 225)] is stored as
    [(0, 234, 218)], 7 below on the blue channel. *)
Theorem hex_colors_read_back (r g b : Z) (s s' : HelloFairyAPI) :
  0 <= r <= 255 -> 0 <= g <= 255 -> 0 <= b <= 255 ->
  r mod 17 = 0 -> g mod 17 = 0 -> b mod 17 = 0 ->
  0 < Z.max r (Z.max g b) ->
  set_color_rgb r g b s = (s', Ok tt) ->
  (exists r' g' b',
     color s' = Some (r', g', b')
     /\ r - 5 <= r' <= r + 5 /\ g - 5 <= g' <= g + 5 /\ b - 5 <= b' <= b + 5)
  /\ read_back None 0 237 225 = (0, 234, 218).
Proof.
  intros Hr Hg Hb Mr Mg Mb Hpos H. split; [| exact seven_off_checked].
  apply set_color_rgb_color in H.
  pose proof hex_round_trips_checked as C. rewrite forallb_forall in C.
  specialize (C r (in_hex_levels r Hr Mr)). unfold hex_round_trip_ok in C.
  rewrite forallb_forall in C. specialize (C g (in_hex_levels g Hg Mg)).
  rewrite forallb_forall in C. specialize (C b (in_hex_levels b Hb Mb)).
  assert (Z : (r =? 0) && (g =? 0) && (b =? 0) = false).
  { destruct (Z.eqb_spec r 0); [| reflexivity].
    destruct (Z.eqb_spec g 0); [| reflexivity].
    destruct (Z.eqb_spec b 0); [lia | reflexivity]. }
  rewrite Z in C. cbn [orb] in C. unfold round_trip_within in C.
  destruct (read_back None r g b) as [[r' g'] b'] eqn:E.
  unfold near in C.
  repeat match type of C with
         | _ && _ = true => apply andb_prop in C; destruct C as [C ?]
         end.
  repeat match goal with
         | H : (_ <=? _) = true |- _ => apply Z.leb_le in H
         end.
  exists r', g', b'. split; [| lia].
  rewrite H. unfold read_back, stored_hsv in *.
  now rewrite (hsv_of_rgb_prior (brightness s) r g b C), E.
Qed.

Lemma hex_colors_read_back_witness :
  exists r' g' b',
    color (fst (set_color_rgb 0 170 136 (with_inbox [[Const.ACK3]] lit_preset)))
    = Some (r', g', b')
    /\ 0 - 5 <= r' <= 0 + 5 /\ 170 - 5 <= g' <= 170 + 5
    /\ 136 - 5 <= b' <= 136 + 5.
Proof.
  refine (proj1 (hex_colors_read_back 0 170 136
    (with_inbox [[Const.ACK3]] lit_preset)
    (fst (set_color_rgb 0 170 136 (with_inbox [[Const.ACK3]] lit_preset)))
    _ _ _ _ _ _ _ _)).
  - lia.
  - lia.
  - lia.
  - reflexivity.
  - reflexivity.
  - reflexivity.
  - reflexivity.
  - vm_compute. reflexivity.
Defined.
